(** * The NLU scoped engine of botpress: confidence selector, model sync
      and extraction pipeline

    A shallow embedding of [modules/nlu/src/backend/engine.ts].

    - JavaScript numbers are IEEE 754 binary64 values: they are modelled by
      Rocq's primitive floats, whose operations round the same way.
    - The collaborators of the engine (storage, classifier, extractors,
      logger, file system, clock) are interfaces whose implementations live
      outside the engine: they are type classes, and every theorem holds for
      all their implementations.
    - Asynchronous methods run to completion one after the other; a method
      is a state transformer that ends normally or by a raised error. *)

From Stdlib Require Import ZArith String List Bool Lia.
From Stdlib Require Import Floats Uint63 DecimalString.
Import ListNotations.

Set Warnings "-inexact-float".
Set Implicit Arguments.

Local Open Scope string_scope.
Local Open Scope float_scope.

(** ** JavaScript numbers *)

(** The number of an array length: lengths stay below 2^32, where the
    conversion is exact. *)
Definition Number (n : nat) : float := of_uint63 (Uint63.of_Z (Z.of_nat n)).

(** The global [isNaN], on a value that is already a number. *)
Definition isNaN (x : float) : bool := is_nan x.

(** [Math.sqrt] and [Math.pow] are provided by the JavaScript engine. *)
Class MathObject := {
  Math_sqrt : float -> float;
  Math_pow : float -> float -> float
}.

(** The arithmetic of an IEEE-exact engine: the square root is the correctly
    rounded one, and the power, which the engine only takes with the
    exponent 2, is the correctly rounded square. *)
Definition ieee_Math : MathObject :=
  {| Math_sqrt := PrimFloat.sqrt;
     Math_pow := fun base _ => base * base |}.

(** ** Predictions *)

Module Prediction.
Record t := mk { name : string; confidence : float }.
End Prediction.
Abbreviation Prediction := Prediction.t.

Definition NonePrediction : Prediction :=
  {| Prediction.confidence := 1.0; Prediction.name := "none" |}.

(** ** lodash's [meanBy] *)

(** [baseSum]: the first value starts the sum; an empty array gives
    [undefined]. *)
Definition baseSum {A} (array : list A) (iteratee : A -> float) : option float :=
  fold_left
    (fun result x =>
       match result with
       | None => Some (iteratee x)
       | Some r => Some (r + iteratee x)
       end)
    array None.

(** [baseMean]: [NaN] on an empty array, the sum over the length otherwise. *)
Definition meanBy {A} (array : list A) (iteratee : A -> float) : float :=
  match length array with
  | O => nan
  | _ =>
      match baseSum array iteratee with
      | Some s => s / Number (length array)
      | None => nan
      end
  end.

(** ** The confidence selector *)

Section Selector.
Context {JS : MathObject}.

(** The standard error of the mean, as the engine computes it. *)
Definition stdErr_of (intents : list Prediction) (mean : float) : float :=
  Math_sqrt
    (fold_left (fun a c => a + Math_pow (Prediction.confidence c - mean) 2)
               intents 0
     / Number (length intents))
  / Math_sqrt (Number (length intents)).

(** [findMostConfidentPredictionMeanStd(intents, fixedThreshold, std = 3)];
    an omitted [std] is [None]. *)
Definition findMostConfidentPredictionMeanStd
    (intents : list Prediction) (fixedThreshold : float) (std : option float)
    : Prediction :=
  let std := match std with Some s => s | None => 3 end in
  if Nat.eqb (length intents) 0 then NonePrediction
  else
    match find (fun x => fixedThreshold <=? Prediction.confidence x) intents with
    | Some best => best
    | None =>
        let mean := meanBy intents Prediction.confidence in
        let stdErr := stdErr_of intents mean in
        match find (fun x => stdErr * std + mean <=? Prediction.confidence x) intents with
        | Some dominant => dominant
        | None => NonePrediction
        end
    end.
End Selector.

(** ** Methods: state, completions, [try] / [catch] / [finally] *)

Definition Error := string.

(** How a statement or a call ends: normally with a value, or by a raised
    error. *)
Inductive Completion (A : Type) : Type :=
| Normal (a : A)
| Throw (e : Error).
Arguments Normal {A} a.
Arguments Throw {A} e.

Definition Exec (S A : Type) : Type := S -> Completion A * S.

Definition pure {S A} (a : A) : Exec S A := fun s => (Normal a, s).

Definition bind {S A B} (m : Exec S A) (k : A -> Exec S B) : Exec S B :=
  fun s =>
    match m s with
    | (Normal a, s') => k a s'
    | (Throw e, s') => (Throw e, s')
    end.

Declare Scope exec_scope.
Delimit Scope exec_scope with exec.
Notation "x <- m ;; k" := (bind m (fun x => k))
  (at level 61, m at next level, right associativity) : exec_scope.
Notation "m ;;; k" := (bind m (fun _ => k))
  (at level 61, right associativity) : exec_scope.
Local Open Scope exec_scope.

(** A pure function that may raise, called from a method. *)
Definition call_pure {S A} (r : Completion A) : Exec S A := fun s => (r, s).

(** [try { body } catch (e) { handler e }] *)
Definition try_catch {S A} (body : Exec S A) (handler : Error -> Exec S A) : Exec S A :=
  fun s =>
    match body s with
    | (Normal a, s') => (Normal a, s')
    | (Throw e, s') => handler e s'
    end.

(** [try { ... } finally { return r }]: the [return] of the [finally] block
    replaces whatever completion the protected statement had, a raised error
    included. *)
Definition finally_return {S A B} (protected : Exec S A) (r : Exec S B) : Exec S B :=
  fun s => r (snd (protected s)).

(** A method body with a local mutable object [l]. *)
Definition with_local {L S A} (l : L) (body : Exec (L * S) A) : Exec S A :=
  fun s => let '(r, (_, s')) := body (l, s) in (r, s').

Definition this_ {L S A} (m : Exec S A) : Exec (L * S) A :=
  fun ls => let '(r, s') := m (snd ls) in (r, (fst ls, s')).

Definition assign {L S} (f : L -> L) : Exec (L * S) unit :=
  fun ls => (Normal tt, (f (fst ls), snd ls)).

Definition read_local {L S} : Exec (L * S) L :=
  fun ls => (Normal (fst ls), ls).

(** [array.map(f)] and lodash's [flatMap] with a callback that may raise. *)
Fixpoint map_c {A B} (f : A -> Completion B) (l : list A) : Completion (list B) :=
  match l with
  | [] => Normal []
  | x :: l' =>
      match f x with
      | Throw e => Throw e
      | Normal y =>
          match map_c f l' with
          | Throw e => Throw e
          | Normal ys => Normal (y :: ys)
          end
      end
  end.

Definition flatMap_c {A B} (l : list A) (f : A -> Completion (list B)) : Completion (list B) :=
  match map_c f l with
  | Throw e => Throw e
  | Normal ls => Normal (concat ls)
  end.

(** ** The data of the SDK *)

Definition Buffer := list Byte.byte.

(** The types of [botpress/sdk] and of the pipelines whose content the engine
    never inspects, but for the [type] of a custom entity definition. *)
Class SdkTypes := {
  Entity : Type;
  EntityDefinition : Type;
  type : EntityDefinition -> string;
  SlotDefinition : Type;
  Sequence : Type;
  Slots : Type
}.

Module Intent.
Record t {sdk : SdkTypes} := mk {
  name : string;
  utterances : list string;
  slots : list SlotDefinition
}.
Arguments mk {sdk} name utterances slots.
End Intent.
Abbreviation Intent := Intent.t.

(** The incoming event; the engine reads its [preview] only. *)
Module Event.
Record t := mk { preview : string }.
End Event.

(** The selected intent: [{ ...intent, matches }]. *)
Module Selected.
Record t := mk {
  name : string;
  confidence : float;
  matches : string -> bool
}.
End Selected.

(** The understanding result; a field that was never assigned is [None]. *)
Module Understanding.
Record t {sdk : SdkTypes} := mk {
  language : option string;
  intents : option (list Prediction);
  intent : option Selected.t;
  entities : option (list Entity);
  slots : option Slots;
  errored : bool
}.
Arguments mk {sdk} language intents intent entities slots errored.

Section Setters.
Context {sdk : SdkTypes}.
Definition set_language (v : string) (r : t) : t :=
  mk (Some v) (intents r) (intent r) (entities r) (slots r) (errored r).
Definition set_intents (v : list Prediction) (r : t) : t :=
  mk (language r) (Some v) (intent r) (entities r) (slots r) (errored r).
Definition set_intent (v : Selected.t) (r : t) : t :=
  mk (language r) (intents r) (Some v) (entities r) (slots r) (errored r).
Definition set_entities (v : list Entity) (r : t) : t :=
  mk (language r) (intents r) (intent r) (Some v) (slots r) (errored r).
Definition set_slots (v : Slots) (r : t) : t :=
  mk (language r) (intents r) (intent r) (entities r) (Some v) (errored r).
Definition set_errored (v : bool) (r : t) : t :=
  mk (language r) (intents r) (intent r) (entities r) (slots r) v.
End Setters.
End Understanding.

(** ** The collaborators *)

Module Storage.
Class t (W : Type) {sdk : SdkTypes} := {
  getIntents : Exec W (list Intent);
  getIntent : string -> Exec W Intent;
  getCustomEntities : Exec W (list EntityDefinition);
  modelExists : string -> Exec W bool;
  getModelAsBuffer : string -> Exec W Buffer;
  persistModel : Buffer -> string -> Exec W unit
}.
End Storage.

Module Logger.
Class t (W : Type) := {
  debug : string -> Exec W unit;
  warn : string -> Exec W unit;
  error : string -> Error -> Exec W unit;
  (** [logger.attachError(err).error(message)] *)
  attachError_error : Error -> string -> Exec W unit
}.
End Logger.

Module LanguageIdentifier.
Class t (W : Type) := {
  identify : string -> Exec W string
}.
End LanguageIdentifier.

Module EntityExtractor.
Class t (W : Type) {sdk : SdkTypes} := {
  extract : string -> string -> Exec W (list Entity)
}.
End EntityExtractor.

Module SlotExtractor.
Class t (W : Type) {sdk : SdkTypes} := {
  train : list Sequence -> Exec W unit;
  extract : string -> Intent -> list Entity -> Exec W Slots
}.
End SlotExtractor.

(** Node's [fs] and [Date], and the timer the retry helper waits on. *)
Module fs.
Class t (W : Type) := {
  readFileSync : string -> Exec W Buffer
}.
End fs.

Module Date.
Class t (W : Type) := {
  now : W -> Z;
  delay : Z -> W -> W
}.
End Date.

(** The intent classifier is an object of its own, with its own state [C]. *)
Module IntentClassifier.
Class t (C : Type) {sdk : SdkTypes} := {
  currentModelId : C -> option string;
  train : list Intent -> string -> Exec C string;
  loadModel : Buffer -> string -> Exec C unit;
  predict : string -> Exec C (list Prediction);
  (** Modelled from the spec: the classifier's source is not part of the
      engine; loading a model tags the classifier's active model id with
      the identifier it is given. *)
  loadModel_tags : forall model modelId c c',
    loadModel model modelId c = (Normal tt, c') ->
    currentModelId c' = Some modelId
}.
End IntentClassifier.

(** The pure helpers of the pipelines and of Node's [crypto] and [JSON]. *)
Class Pipelines {sdk : SdkTypes} := {
  createIntentMatcher : string -> Completion (string -> bool);
  extractPatternEntities : string -> list EntityDefinition -> Completion (list Entity);
  extractListEntities : string -> list EntityDefinition -> Completion (list Entity);
  generateTrainingSequence : string -> list SlotDefinition -> string -> Completion Sequence;
  JSON_stringify : list Intent -> string;
  md5_hex : string -> string
}.

(** ** The scoped engine *)

Section ScopedEngine.
Context {sdk : SdkTypes} {JS : MathObject} {pipelines : Pipelines}.
Context {W C : Type}.
Context {storage : Storage.t W} {logger : Logger.t W}
        {langDetector : LanguageIdentifier.t W}
        {systemEntityExtractor : EntityExtractor.t W}
        {slotExtractor : SlotExtractor.t W}
        {file_system : fs.t W} {clock : Date.t W}
        {classifier : IntentClassifier.t C}.

(** The calls the engine makes to its collaborators, in order. *)
Inductive Call : Type :=
| storage_getIntents
| storage_getIntent (name : string)
| storage_getCustomEntities
| storage_modelExists (modelHash : string)
| storage_getModelAsBuffer (modelHash : string)
| storage_persistModel (modelBuffer : Buffer) (modelName : string)
| logger_debug (message : string)
| logger_warn (message : string)
| logger_error (message : string) (err : Error)
| logger_attachError_error (err : Error) (message : string)
| langDetector_identify (text : string)
| systemEntityExtractor_extract (text lang : string)
| slotExtractor_train (trainingSet : list Sequence)
| slotExtractor_extract (text : string) (intentDef : Intent) (entities : list Entity)
| fs_readFileSync (path : string)
| intentClassifier_train (intents : list Intent) (modelHash : string)
| intentClassifier_loadModel (model : Buffer) (modelId : string)
| intentClassifier_predict (text : string).

(** The engine: its threshold, its classifier, the world its other
    collaborators act on, and the record of the calls made so far.
    [confidenceTreshold] is [None] while it holds [undefined]. *)
Record ScopedEngine : Type := mkEngine {
  confidenceTreshold : option float;
  intentClassifier : C;
  world : W;
  calls : list Call
}.

Definition on_world {A} (c : Call) (op : Exec W A) : Exec ScopedEngine A :=
  fun this =>
    let '(r, w) := op (world this) in
    (r, mkEngine (confidenceTreshold this) (intentClassifier this) w
                 (calls this ++ [c])%list).

Definition on_classifier {A} (c : Call) (op : Exec C A) : Exec ScopedEngine A :=
  fun this =>
    let '(r, cl) := op (intentClassifier this) in
    (r, mkEngine (confidenceTreshold this) cl (world this)
                 (calls this ++ [c])%list).

Definition set_confidenceTreshold (v : option float) : Exec ScopedEngine unit :=
  fun this =>
    (Normal tt, mkEngine v (intentClassifier this) (world this) (calls this)).

Definition get_confidenceTreshold : Exec ScopedEngine (option float) :=
  fun this => (Normal (confidenceTreshold this), this).

Definition get_currentModelId : Exec ScopedEngine (option string) :=
  fun this =>
    (Normal (IntentClassifier.currentModelId (intentClassifier this)), this).

Definition Date_now : Exec ScopedEngine Z :=
  fun this => (Normal (Date.now (world this)), this).

(** [undefined] is [NaN] wherever a number is expected. *)
Definition ToNumber (v : option float) : float :=
  match v with Some x => x | None => nan end.

(** A number in a template literal: timestamps are integers. *)
Definition string_of_Z (z : Z) : string := NilZero.string_of_int (Z.to_int z).

(** [a !== b] on a model identifier that may be [undefined]. *)
Definition strict_neq (a : option string) (b : string) : bool :=
  match a with
  | Some a' => negb (String.eqb a' b)
  | None => true
  end.

Definition _getIntentsHash (intents : list Intent) : string :=
  md5_hex (JSON_stringify intents).

Definition _loadModel (modelHash : string) : Exec ScopedEngine unit :=
  on_world (logger_debug ("Restoring intents model '" ++ modelHash ++ "' from storage"))
    (Logger.debug ("Restoring intents model '" ++ modelHash ++ "' from storage")) ;;;
  modelBuffer <- on_world (storage_getModelAsBuffer modelHash)
                   (Storage.getModelAsBuffer modelHash) ;;
  on_classifier (intentClassifier_loadModel modelBuffer modelHash)
    (IntentClassifier.loadModel modelBuffer modelHash).

Definition _trainModel (intents : list Intent) (modelHash : string)
    : Exec ScopedEngine unit :=
  try_catch
    (on_world (logger_debug "The intents model needs to be updated, training model ...")
       (Logger.debug "The intents model needs to be updated, training model ...") ;;;
     intentModelPath <- on_classifier (intentClassifier_train intents modelHash)
                          (IntentClassifier.train intents modelHash) ;;
     intentModelBuffer <- on_world (fs_readFileSync intentModelPath)
                            (fs.readFileSync intentModelPath) ;;
     now <- Date_now ;;
     let intentModelName := string_of_Z now ++ "__" ++ modelHash ++ ".bin" in
     on_world (storage_persistModel intentModelBuffer intentModelName)
       (Storage.persistModel intentModelBuffer intentModelName) ;;;
     on_world (logger_debug "Intents done training")
       (Logger.debug "Intents done training"))
    (fun err =>
       on_world (logger_attachError_error err "Error training intents")
         (Logger.attachError_error err "Error training intents")).

(** The second [try] of [sync]: the slot tagger is trained again on the
    sequences of every utterance; a failure is logged. *)
Definition slot_training (intents : list Intent) : Exec ScopedEngine unit :=
  try_catch
    (trainingSet <- call_pure
       (flatMap_c intents (fun intent =>
          map_c (fun utterance =>
                   generateTrainingSequence utterance (Intent.slots intent)
                     (Intent.name intent))
                (Intent.utterances intent))) ;;
     on_world (slotExtractor_train trainingSet) (SlotExtractor.train trainingSet))
    (fun err =>
       on_world (logger_error "Error training slot tagger" err)
         (Logger.error "Error training slot tagger" err)).

Definition sync : Exec ScopedEngine unit :=
  intents <- on_world storage_getIntents Storage.getIntents ;;
  let modelHash := _getIntentsHash intents in
  found <- on_world (storage_modelExists modelHash) (Storage.modelExists modelHash) ;;
  (if found : bool then _loadModel modelHash else _trainModel intents modelHash) ;;;
  slot_training intents.

Definition checkSyncNeeded : Exec ScopedEngine bool :=
  intents <- on_world storage_getIntents Storage.getIntents ;;
  if negb (Nat.eqb (length intents) 0) then
    let intentsHash := _getIntentsHash intents in
    currentModelId <- get_currentModelId ;;
    pure (strict_neq currentModelId intentsHash)
  else pure false.

(** The configuration of the module; the threshold may be missing. *)
Record Config : Type := mkConfig { config_confidenceTreshold : option float }.

Definition init (config : Config) : Exec ScopedEngine unit :=
  set_confidenceTreshold (config_confidenceTreshold config) ;;;
  t <- get_confidenceTreshold ;;
  (if isNaN (ToNumber t) || (ToNumber t <? 0) || (1 <? ToNumber t)
   then set_confidenceTreshold (Some 0.7)
   else pure tt) ;;;
  needed <- checkSyncNeeded ;;
  if needed : bool then sync else pure tt.

Definition _extractEntities (text lang : string) : Exec ScopedEngine (list Entity) :=
  customEntityDefs <- on_world storage_getCustomEntities Storage.getCustomEntities ;;
  patternEntities <- call_pure
    (extractPatternEntities text
       (filter (fun ent => String.eqb (type ent) "pattern") customEntityDefs)) ;;
  listEntities <- call_pure
    (extractListEntities text
       (filter (fun ent => String.eqb (type ent) "list") customEntityDefs)) ;;
  systemEntities <- on_world (systemEntityExtractor_extract text lang)
                      (EntityExtractor.extract text lang) ;;
  pure (systemEntities ++ patternEntities ++ listEntities)%list.

(** The [try] block of [_extract], on the local object [ret]. *)
Definition _extract_try (incomingEvent : Event.t)
    : Exec (Understanding.t * ScopedEngine) unit :=
  let text := Event.preview incomingEvent in
  language <- this_ (on_world (langDetector_identify text)
                       (LanguageIdentifier.identify text)) ;;
  assign (Understanding.set_language language) ;;;
  intents <- this_ (on_classifier (intentClassifier_predict text)
                      (IntentClassifier.predict text)) ;;
  assign (Understanding.set_intents intents) ;;;
  threshold <- this_ get_confidenceTreshold ;;
  let intent := findMostConfidentPredictionMeanStd intents (ToNumber threshold) None in
  matches <- call_pure (createIntentMatcher (Prediction.name intent)) ;;
  assign (Understanding.set_intent
            (Selected.mk (Prediction.name intent) (Prediction.confidence intent)
                         matches)) ;;;
  entities <- this_ (_extractEntities text language) ;;
  assign (Understanding.set_entities entities) ;;;
  intentDef <- this_ (on_world (storage_getIntent (Prediction.name intent))
                        (Storage.getIntent (Prediction.name intent))) ;;
  slots <- this_ (on_world (slotExtractor_extract text intentDef entities)
                    (SlotExtractor.extract text intentDef entities)) ;;
  assign (Understanding.set_slots slots) ;;;
  assign (Understanding.set_errored false).

(** [const ret: any = { errored: true }] *)
Definition initial_result : Understanding.t :=
  Understanding.mk None None None None None true.

Definition _extract (incomingEvent : Event.t) : Exec ScopedEngine Understanding.t :=
  with_local initial_result
    (finally_return
       (try_catch (_extract_try incomingEvent)
          (fun error =>
             this_ (on_world (logger_warn ("Could not extract whole NLU data, " ++ error))
                             (Logger.warn ("Could not extract whole NLU data, " ++ error)))))
       read_local).

(** *** The pipeline in the words of the specification *)

(** How far the steps of a run went: the fields assigned so far. *)
Inductive Progress : Type :=
| nothing_assigned
| language_assigned (language : string)
| intents_assigned (language : string) (intents : list Prediction)
| intent_assigned (language : string) (intents : list Prediction)
    (intent : Selected.t)
| entities_assigned (language : string) (intents : list Prediction)
    (intent : Selected.t) (entities : list Entity)
| all_assigned (language : string) (intents : list Prediction)
    (intent : Selected.t) (entities : list Entity) (slots : Slots).

(** The result at that point: the fields already assigned, and
    [errored = true] unless every step completed. *)
Definition result_at (p : Progress) : Understanding.t :=
  match p with
  | nothing_assigned =>
      Understanding.mk None None None None None true
  | language_assigned language =>
      Understanding.mk (Some language) None None None None true
  | intents_assigned language intents =>
      Understanding.mk (Some language) (Some intents) None None None true
  | intent_assigned language intents intent =>
      Understanding.mk (Some language) (Some intents) (Some intent) None None true
  | entities_assigned language intents intent entities =>
      Understanding.mk (Some language) (Some intents) (Some intent)
                       (Some entities) None true
  | all_assigned language intents intent entities slots =>
      Understanding.mk (Some language) (Some intents) (Some intent)
                       (Some entities) (Some slots) false
  end.

(** The steps in their order, each on what the previous ones left, up to the
    first one that raises: language, intents, selection and matcher,
    entities, intent definition and slots. *)
Definition pipeline_progress (incomingEvent : Event.t) (this : ScopedEngine)
    : Progress :=
  let text := Event.preview incomingEvent in
  match on_world (langDetector_identify text)
                 (LanguageIdentifier.identify text) this with
  | (Throw _, _) => nothing_assigned
  | (Normal language, this1) =>
  match on_classifier (intentClassifier_predict text)
                      (IntentClassifier.predict text) this1 with
  | (Throw _, _) => language_assigned language
  | (Normal intents, this2) =>
  let selected := findMostConfidentPredictionMeanStd intents
                    (ToNumber (confidenceTreshold this2)) None in
  match createIntentMatcher (Prediction.name selected) with
  | Throw _ => intents_assigned language intents
  | Normal matches =>
  let intent := Selected.mk (Prediction.name selected)
                            (Prediction.confidence selected) matches in
  match _extractEntities text language this2 with
  | (Throw _, _) => intent_assigned language intents intent
  | (Normal entities, this3) =>
  match on_world (storage_getIntent (Prediction.name selected))
                 (Storage.getIntent (Prediction.name selected)) this3 with
  | (Throw _, _) => entities_assigned language intents intent entities
  | (Normal intentDef, this4) =>
  match on_world (slotExtractor_extract text intentDef entities)
                 (SlotExtractor.extract text intentDef entities) this4 with
  | (Throw _, _) => entities_assigned language intents intent entities
  | (Normal slots, _) => all_assigned language intents intent entities slots
  end end end end end end.

(** *** The retry helper *)

Record RetryPolicy : Type := mkPolicy {
  interval : Z;
  max_interval : Z;
  timeout : Z;
  max_tries : nat
}.

Definition retryPolicy : RetryPolicy :=
  {| interval := 100; max_interval := 500; timeout := 5000; max_tries := 3 |}.

Definition wait (ms : Z) : Exec ScopedEngine unit :=
  fun this =>
    (Normal tt, mkEngine (confidenceTreshold this) (intentClassifier this)
                         (Date.delay ms (world this)) (calls this)).

(** Modelled from the spec: the retry helper is a library outside the
    engine. It re-invokes the whole operation on any raised failure, one
    attempt after the other, up to the attempt and time budget, and then
    surfaces the last failure; an attempt that returns ends it. *)
Fixpoint retry_loop {A} (func : Exec ScopedEngine A) (policy : RetryPolicy)
    (giveup_time : Z) (tries_left : nat) : Exec ScopedEngine A :=
  match tries_left with
  | O => fun this => (Throw "operation timed out", this)
  | S n =>
      fun this =>
        match func this with
        | (Normal a, this') => (Normal a, this')
        | (Throw e, this') =>
            if Nat.eqb n 0
               || (giveup_time <=? Date.now (world this') + interval policy)%Z
            then (Throw e, this')
            else (wait (interval policy) ;;; retry_loop func policy giveup_time n) this'
        end
  end.

Definition retry {A} (func : Exec ScopedEngine A) (policy : RetryPolicy)
    : Exec ScopedEngine A :=
  fun this =>
    retry_loop func policy (Date.now (world this) + timeout policy)%Z
               (max_tries policy) this.

Definition extract (incomingEvent : Event.t) : Exec ScopedEngine Understanding.t :=
  retry (_extract incomingEvent) retryPolicy.
(** *** What a method leaves alone *)

(** The method leaves the threshold as it was. *)
Definition keeps_threshold {A} (m : Exec ScopedEngine A) : Prop :=
  forall this, confidenceTreshold (snd (m this)) = confidenceTreshold this.

(** The method leaves the classifier as it was. *)
Definition keeps_classifier {A} (m : Exec ScopedEngine A) : Prop :=
  forall this, intentClassifier (snd (m this)) = intentClassifier this.

(** The method only adds calls, all of them in [P]. *)
Definition only_calls {A} (P : Call -> Prop) (m : Exec ScopedEngine A) : Prop :=
  forall this, exists new,
    calls (snd (m this)) = (calls this ++ new)%list /\ Forall P new.

(** A call that does not go to the classifier. *)
Definition not_to_classifier (c : Call) : Prop :=
  match c with
  | intentClassifier_train _ _
  | intentClassifier_loadModel _ _
  | intentClassifier_predict _ => False
  | _ => True
  end.

(** A call that is not a training of the intent classifier. *)
Definition not_intent_training (c : Call) : Prop :=
  match c with
  | intentClassifier_train _ _ => False
  | _ => True
  end.

(** A call that does not load a model into the intent classifier. *)
Definition not_model_loading (c : Call) : Prop :=
  match c with
  | intentClassifier_loadModel _ _ => False
  | _ => True
  end.
End ScopedEngine.

(** ** The selection policy in the words of the specification *)

(** The sum [x1 + x2 + ... + xn] of a list of numbers, from left to right. *)
Definition sum_of (xs : list float) : float :=
  match xs with
  | [] => 0
  | x :: rest => fold_left PrimFloat.add rest x
  end.

(** The arithmetic mean of a list of numbers: their sum over their count. *)
Definition arithmetic_mean (xs : list float) : float :=
  sum_of xs / Number (length xs).

Section OutlierPolicy.
Context {JS : MathObject}.

(** The population standard deviation of the confidences around [mu]. *)
Definition population_std_dev (confidences : list float) (mu : float) : float :=
  Math_sqrt
    (fold_left (fun a c => a + Math_pow (c - mu) 2) confidences 0
     / Number (length confidences)).

(** The standard error of the mean: the deviation over [sqrt n]. *)
Definition standard_error (confidences : list float) (mu : float) : float :=
  population_std_dev confidences mu / Math_sqrt (Number (length confidences)).

(** The cutoff of the outlier test: [mu + stdDevMultiplier * stderr]. *)
Definition outlier_cutoff (predictions : list Prediction) (stdDevMultiplier : float)
    : float :=
  let mu := meanBy predictions Prediction.confidence in
  mu + stdDevMultiplier
       * standard_error (map Prediction.confidence predictions) mu.

(** The cutoff as the specification words it, on the confidences alone:
    their arithmetic mean plus [stdDevMultiplier] times the standard error,
    which is their population standard deviation over [sqrt n]. *)
Definition specified_cutoff (predictions : list Prediction)
    (stdDevMultiplier : float) : float :=
  let confidences := map Prediction.confidence predictions in
  let mu := arithmetic_mean confidences in
  mu + stdDevMultiplier * (population_std_dev confidences mu
                           / Math_sqrt (Number (length confidences))).
End OutlierPolicy.

(** An engine whose [Math] is exact where the results are representable:
    the square of zero and the square roots of zero and of one. *)
Definition exact_on_zero_and_one (JS : MathObject) : Prop :=
  Math_pow 0 2 = 0 /\ Math_sqrt 0 = 0 /\ Math_sqrt 1 = 1.

(** The multiplier of the outlier test: 3 unless one is given. *)
Definition multiplier (std : option float) : float :=
  match std with Some s => s | None => 3 end.

(** The threshold the initialisation is specified to leave: the configured
    value when it lies in [0, 1], the default otherwise. *)
Definition threshold_policy (configured : option float) : float :=
  match configured with
  | Some v => if (0 <=? v) && (v <=? 1) then v else 0.7
  | None => 0.7
  end.

(** The calls of a run: those recorded after the [before] ones. *)
Definition calls_since {A} (before now_ : list A) : list A :=
  skipn (length before) now_.

(** Finite numbers and zeros, on the specification of binary64. *)
Definition sf_finite (x : spec_float) : bool :=
  match x with
  | S754_zero _ | S754_finite _ _ _ => true
  | _ => false
  end.

Definition sf_zero (x : spec_float) : bool :=
  match x with S754_zero _ => true | _ => false end.

(** ** A small bot, to run the engine on *)

Module Demo.
Definition types : SdkTypes :=
  {| Entity := string;
     EntityDefinition := string * string;
     type := fst;
     SlotDefinition := string;
     Sequence := string;
     Slots := list string |}.
#[export] Existing Instance types.

#[export] Instance math : MathObject := ieee_Math.

(** The world: whether the model of the current intents was persisted,
    whether the slot tagger answers, and the clock. *)
Record World := mkWorld {
  model_saved : bool;
  slot_tagger_up : bool;
  time : Z
}.

Definition greet : Intent := Intent.mk "greet" ["hello"; "hi there"] ["name"].
Definition bye : Intent := Intent.mk "bye" ["see you"] [].
Definition bot_intents : list Intent := [greet; bye].

#[export] Instance storage : Storage.t World :=
  {| Storage.getIntents := fun w => (Normal bot_intents, w);
     Storage.getIntent := fun name w =>
       (Normal (match find (fun i => String.eqb (Intent.name i) name) bot_intents with
                | Some i => i
                | None => Intent.mk name [] []
                end), w);
     Storage.getCustomEntities := fun w =>
       (Normal [("pattern", "[0-9]+"); ("list", "colors")], w);
     Storage.modelExists := fun _ w => (Normal (model_saved w), w);
     Storage.getModelAsBuffer := fun _ w =>
       if model_saved w then (Normal [Byte.x01; Byte.x02], w)
       else (Throw "model not found", w);
     Storage.persistModel := fun _ _ w =>
       (Normal tt, mkWorld true (slot_tagger_up w) (time w)) |}.

#[export] Instance logger : Logger.t World :=
  {| Logger.debug := fun _ w => (Normal tt, w);
     Logger.warn := fun _ w => (Normal tt, w);
     Logger.error := fun _ _ w => (Normal tt, w);
     Logger.attachError_error := fun _ _ w => (Normal tt, w) |}.

#[export] Instance langDetector : LanguageIdentifier.t World :=
  {| LanguageIdentifier.identify := fun _ w => (Normal "en", w) |}.

#[export] Instance systemEntityExtractor : EntityExtractor.t World :=
  {| EntityExtractor.extract := fun _ _ w => (Normal ["number"], w) |}.

#[export] Instance slotExtractor : SlotExtractor.t World :=
  {| SlotExtractor.train := fun _ w => (Normal tt, w);
     SlotExtractor.extract := fun _ _ _ w =>
       if slot_tagger_up w then (Normal ["name"], w)
       else (Throw "the tagger has no model", w) |}.

#[export] Instance file_system : fs.t World :=
  {| fs.readFileSync := fun _ w => (Normal [Byte.x03], w) |}.

#[export] Instance clock : Date.t World :=
  {| Date.now := time;
     Date.delay := fun ms w =>
       mkWorld (model_saved w) (slot_tagger_up w) (time w + ms) |}.

(** A classifier that keeps the identifier of the model it loaded; its
    training writes the artifact and leaves the identifier alone. *)
Definition Classifier := option string.

Definition classifier_loadModel (model : Buffer) (modelId : string)
    : Exec Classifier unit :=
  fun _ => (Normal tt, Some modelId).

Definition classifier_loadModel_tags :
  forall (model : Buffer) (modelId : string) (c c' : Classifier),
    classifier_loadModel model modelId c = (Normal tt, c') ->
    (fun c : Classifier => c) c' = Some modelId :=
  fun model modelId c c' H =>
    eq_sym (f_equal snd H).

#[export] Instance classifier : IntentClassifier.t Classifier :=
  {| IntentClassifier.currentModelId := fun c => c;
     IntentClassifier.train := fun _ _ c => (Normal "/tmp/intents.bin", c);
     IntentClassifier.loadModel := classifier_loadModel;
     IntentClassifier.predict := fun _ c =>
       (Normal [Prediction.mk "greet" 0.9; Prediction.mk "bye" 0.4], c);
     IntentClassifier.loadModel_tags := classifier_loadModel_tags |}.

#[export] Instance pipelines : Pipelines :=
  {| createIntentMatcher := fun name => Normal (String.eqb name);
     extractPatternEntities := fun _ defs => Normal (map snd defs);
     extractListEntities := fun _ defs => Normal (map snd defs);
     generateTrainingSequence := fun utterance _ name => Normal (name ++ ": " ++ utterance);
     JSON_stringify := fun intents => String.concat "," (map Intent.name intents);
     md5_hex := fun s => "md5(" ++ s ++ ")" |}.

(** A freshly constructed engine. *)
Definition engine (saved tagger_up : bool) : @ScopedEngine types World Classifier :=
  mkEngine (Some 0.7) None (mkWorld saved tagger_up 1541203200000) [].

Definition hello : Event.t := Event.mk "hello".
End Demo.

(** ** More on the calls of a run *)

Section CallKinds.
Context {sdk : SdkTypes}.

(** A call that persists a model does it under a name made of a timestamp
    and of [modelHash]. *)
Definition persists_under (modelHash : string) (c : Call) : Prop :=
  match c with
  | storage_persistModel _ modelName =>
      exists timestamp : Z,
        modelName = string_of_Z timestamp ++ "__" ++ modelHash ++ ".bin"
  | _ => True
  end.

(** A call that is not a prediction of the intent classifier. *)
Definition not_predicting (c : Call) : Prop :=
  match c with
  | intentClassifier_predict _ => False
  | _ => True
  end.



End CallKinds.

(** ** The entry points of the module: one engine per bot *)

(** A JavaScript object used as a map from keys to values, [{}] at first:
    its own properties. It is read and written by key; the order in which
    its keys enumerate is not modelled. An assignment to the key
    ["__proto__"] creates no own property: it replaces the prototype of the
    object, which this list of own properties does not hold. What is proved
    of an assignment is therefore stated for the other keys only. *)
Definition JSObject (V : Type) : Type := list (string * V).

Definition get_property {V} (o : JSObject V) (key : string) : option V :=
  match find (fun kv => String.eqb (fst kv) key) o with
  | Some kv => Some (snd kv)
  | None => None
  end.

Definition delete_property {V} (o : JSObject V) (key : string) : JSObject V :=
  filter (fun kv => negb (String.eqb (fst kv) key)) o.

Definition set_property {V} (o : JSObject V) (key : string) (v : V) : JSObject V :=
  if String.eqb key "__proto__" then o
  else (key, v) :: delete_property o key.

Section Lifecycle.
Context {sdk : SdkTypes} {JS : MathObject} {pipelines : Pipelines}.
Context {W C : Type}.
Context {logger : Logger.t W}
        {langDetector : LanguageIdentifier.t W}
        {systemEntityExtractor : EntityExtractor.t W}
        {slotExtractor : SlotExtractor.t W}
        {file_system : fs.t W} {clock : Date.t W}
        {classifier : IntentClassifier.t C}.

(** [new Storage(config, botId)]: the storage of one bot. *)
Variable storage_of : Config -> string -> Storage.t W.

(** [new FastTextClassifier(logger)]: a classifier as constructed. *)
Variable new_classifier : C.

(** [bp.config.getModuleConfigForBot(moduleId, botId)] *)
Variable getModuleConfigForBot : string -> string -> Exec W Config.

(** What an engine object holds between two calls. *)
Record Scoped : Type := mkScoped {
  scoped_botId : string;
  scoped_config : Config;
  scoped_confidenceTreshold : option float;
  scoped_intentClassifier : C
}.

(** The process: the world, the calls made so far and the engines of the
    mounted bots, [nluByBot]. *)
Record Process : Type := mkProcess {
  process_world : W;
  process_calls : list Call;
  nluByBot : JSObject Scoped
}.

(** [new ScopedEngine(logger, botId, config, toolkit)]: the threshold is 0.7
    until [init] reads the configuration. *)
Definition new_ScopedEngine (botId : string) (config : Config) : Scoped :=
  mkScoped botId config (Some 0.7) new_classifier.

(** The engine object at work in the process. *)
Definition at_work (scoped : Scoped) (p : Process) : @ScopedEngine sdk W C :=
  mkEngine (scoped_confidenceTreshold scoped) (scoped_intentClassifier scoped)
           (process_world p) (process_calls p).

(** The engine object after a method ran. *)
Definition after_work (scoped : Scoped) (this : @ScopedEngine sdk W C) : Scoped :=
  mkScoped (scoped_botId scoped) (scoped_config scoped)
           (confidenceTreshold this) (intentClassifier this).

Definition onBotMount (botId : string) : Exec Process unit :=
  fun p =>
    match getModuleConfigForBot "nlu" botId (process_world p) with
    | (Throw e, w) => (Throw e, mkProcess w (process_calls p) (nluByBot p))
    | (Normal moduleBotConfig, w) =>
        let scoped := new_ScopedEngine botId moduleBotConfig in
        match init (storage := storage_of moduleBotConfig botId) moduleBotConfig
                   (at_work scoped (mkProcess w (process_calls p) (nluByBot p)))
        with
        | (Throw e, this) =>
            (Throw e, mkProcess (world this) (calls this) (nluByBot p))
        | (Normal _, this) =>
            (Normal tt,
             mkProcess (world this) (calls this)
               (set_property (nluByBot p) botId (after_work scoped this)))
        end
    end.

Definition onBotUnmount (botId : string) : Exec Process unit :=
  fun p =>
    (Normal tt,
     mkProcess (process_world p) (process_calls p)
               (delete_property (nluByBot p) botId)).
End Lifecycle.

(** ** Collaborators that fail, to run the engine on *)

Module Faulty.
Import Demo.

(** A classifier whose training raises. *)
Definition classifier : IntentClassifier.t Classifier :=
  {| IntentClassifier.currentModelId := fun c => c;
     IntentClassifier.train := fun _ _ c => (Throw "fastText failed", c);
     IntentClassifier.loadModel := classifier_loadModel;
     IntentClassifier.predict := fun _ c => (Normal [], c);
     IntentClassifier.loadModel_tags := classifier_loadModel_tags |}.

(** A storage that lists a model it cannot read, and one without intents. *)
Definition storage : Storage.t World :=
  {| Storage.getIntents := fun w => (Normal bot_intents, w);
     Storage.getIntent := fun name w => (Normal (Intent.mk name [] []), w);
     Storage.getCustomEntities := fun w => (Normal [], w);
     Storage.modelExists := fun _ w => (Normal true, w);
     Storage.getModelAsBuffer := fun _ w => (Throw "model not found", w);
     Storage.persistModel := fun _ _ w => (Normal tt, w) |}.

Definition empty_storage : Storage.t World :=
  {| Storage.getIntents := fun w => (Normal [], w);
     Storage.getIntent := fun name w => (Normal (Intent.mk name [] []), w);
     Storage.getCustomEntities := fun w => (Normal [], w);
     Storage.modelExists := fun _ w => (Normal false, w);
     Storage.getModelAsBuffer := fun _ w => (Throw "model not found", w);
     Storage.persistModel := fun _ _ w => (Normal tt, w) |}.

Definition offline_storage : Storage.t World :=
  {| Storage.getIntents := fun w => (Throw "storage unreachable", w);
     Storage.getIntent := fun name w => (Throw "storage unreachable", w);
     Storage.getCustomEntities := fun w => (Throw "storage unreachable", w);
     Storage.modelExists := fun _ w => (Throw "storage unreachable", w);
     Storage.getModelAsBuffer := fun _ w => (Throw "storage unreachable", w);
     Storage.persistModel := fun _ _ w => (Throw "storage unreachable", w) |}.

(** A slot tagger whose training raises. *)
Definition slotExtractor : SlotExtractor.t World :=
  {| SlotExtractor.train := fun _ w => (Throw "CRF training failed", w);
     SlotExtractor.extract := fun _ _ _ w => (Normal [], w) |}.

(** The configuration service of the process. *)
Definition getModuleConfigForBot (moduleId botId : string) : Exec World Config :=
  fun w =>
    if String.eqb botId "ghost" then (Throw "no such bot", w)
    else (Normal (mkConfig (Some 1.5)), w).

Definition process : Process (C := Classifier) :=
  mkProcess (mkWorld true true 1541203200000) [] [].
End Faulty.

(** * Properties *)

Unset Implicit Arguments.

(** ** Facts on binary64 numbers *)

Section FloatFacts.

Lemma SFcompare_swap (x y : spec_float) :
  SFcompare y x = option_map CompOpp (SFcompare x y).
Proof.
  destruct x as [sx|sx| |sx mx ex], y as [sy|sy| |sy my ey]; simpl;
    try reflexivity;
    try (destruct sx; reflexivity); try (destruct sy; reflexivity);
    try (destruct sx, sy; reflexivity).
  destruct sx, sy; simpl; try reflexivity.
  - rewrite (Z.compare_antisym ex ey).
    destruct (ex ?= ey)%Z; simpl; try reflexivity.
    rewrite (Pos.compare_cont_antisym mx my Eq). reflexivity.
  - rewrite (Z.compare_antisym ex ey).
    destruct (ex ?= ey)%Z; simpl; try reflexivity.
    rewrite (Pos.compare_cont_antisym mx my Eq). reflexivity.
Qed.

Lemma SFcompare_refl (x : spec_float) :
  SFcompare x x = match x with S754_nan => None | _ => Some Eq end.
Proof.
  destruct x as [s|s| |s m e]; simpl; try reflexivity.
  - destruct s; reflexivity.
  - rewrite Z.compare_refl.
    assert (H : Pos.compare_cont Eq m m = Eq) by apply Pos.compare_refl.
    rewrite H. destruct s; reflexivity.
Qed.

Lemma is_nan_spec (x : float) :
  is_nan x = match Prim2SF x with S754_nan => true | _ => false end.
Proof.
  unfold is_nan. rewrite FloatAxioms.eqb_spec. unfold SFeqb.
  rewrite SFcompare_refl. destruct (Prim2SF x); reflexivity.
Qed.

Lemma is_finite_spec (x : float) : is_finite x = sf_finite (Prim2SF x).
Proof.
  unfold is_finite, is_infinity.
  rewrite is_nan_spec, FloatAxioms.eqb_spec, abs_spec.
  change (Prim2SF infinity) with (S754_infinity false).
  destruct (Prim2SF x) as [s|s| |s m e]; reflexivity.
Qed.

(** [x <= y] is [not (y < x)], but for [NaN], which compares with nothing. *)
Lemma leb_ltb (x y : float) :
  (x <=? y) = negb (y <? x) && negb (is_nan x) && negb (is_nan y).
Proof.
  rewrite FloatAxioms.leb_spec, FloatAxioms.ltb_spec, !is_nan_spec.
  unfold SFleb, SFltb.
  rewrite (SFcompare_swap (Prim2SF x) (Prim2SF y)).
  destruct (Prim2SF x) as [sx|sx| |sx mx ex] eqn:Hx,
           (Prim2SF y) as [sy|sy| |sy my ey] eqn:Hy;
    try reflexivity;
    try (simpl; destruct sx; reflexivity);
    try (simpl; destruct sy; reflexivity);
    try (simpl; destruct sx, sy; reflexivity).
  simpl.
  destruct sx, sy; try reflexivity;
    destruct (ex ?= ey)%Z; try reflexivity;
    destruct (Pos.compare_cont Eq mx my); reflexivity.
Qed.

Lemma float_add_comm (x y : float) : x + y = y + x.
Proof.
  apply Prim2SF_inj. rewrite !FloatAxioms.add_spec.
  unfold SF64add, SFadd.
  destruct (Prim2SF x) as [sx|sx| |sx mx ex], (Prim2SF y) as [sy|sy| |sy my ey];
    try reflexivity; try (destruct sx, sy; reflexivity).
  rewrite (Z.min_comm ey ex), Z.add_comm. reflexivity.
Qed.

Lemma float_mul_comm (x y : float) : x * y = y * x.
Proof.
  apply Prim2SF_inj. rewrite !FloatAxioms.mul_spec.
  unfold SF64mul, SFmul.
  destruct (Prim2SF x) as [sx|sx| |sx mx ex], (Prim2SF y) as [sy|sy| |sy my ey];
    try reflexivity; try (rewrite xorb_comm; reflexivity).
  rewrite xorb_comm, Pos.mul_comm, Z.add_comm. reflexivity.
Qed.

Lemma sub_diag (x : float) : is_finite x = true -> x - x = 0.
Proof.
  rewrite is_finite_spec. intros Hx.
  apply Prim2SF_inj. rewrite FloatAxioms.sub_spec.
  change (Prim2SF 0) with (S754_zero false).
  unfold SF64sub, SFsub.
  destruct (Prim2SF x) as [s|s| |s m e]; try discriminate.
  - destruct s; reflexivity.
  - rewrite Z.sub_diag. reflexivity.
Qed.

Lemma div_eucl_exact (a q b : Z) :
  (0 < b)%Z -> a = (q * b)%Z -> Z.div_eucl a b = (q, 0%Z).
Proof.
  intros Hb ->.
  pose proof (Z.div_mul q b ltac:(lia)) as Hq.
  pose proof (Z.mod_mul q b ltac:(lia)) as Hr.
  unfold Z.div, Z.modulo in Hq, Hr.
  destruct (Z.div_eucl (q * b) b) as [q' r']. congruence.
Qed.

(** Dividing a representable number by one is exact: the quotient of the
    mantissas is the mantissa, shifted by one bit for a normal number and
    shifted back by the rounding. *)
Lemma SFdiv_one (s : bool) (m : positive) (e : Z) :
  bounded prec emax m e = true ->
  SFdiv prec emax (S754_finite s m e) (S754_finite false 4503599627370496 (-52))
  = S754_finite s m e.
Proof.
  unfold bounded, canonical_mantissa. intros H.
  apply andb_prop in H. destruct H as [Hc He].
  apply Z.eqb_eq in Hc. apply Z.leb_le in He.
  unfold fexp, emin in Hc. cbv [prec emax] in Hc, He.
  unfold SFdiv, SFdiv_core_binary.
  change (Zdigits2 (Zpos m)) with (Zpos (digits2_pos m)).
  change (Zdigits2 (Zpos 4503599627370496)) with 53%Z.
  set (d := Zpos (digits2_pos m)) in *.
  unfold fexp, emin. cbv [prec emax].
  destruct (Z.eq_dec e (-1074)) as [Hmin | Hnorm].
  - (* the smallest exponent: the quotient is the mantissa itself *)
    replace (Z.min (Z.max (d + e - (53 + -52) - 53) (3 - 1024 - 53)) (e - -52))%Z
      with e by lia.
    replace (e - -52 - e)%Z with 52%Z by lia.
    rewrite (div_eucl_exact _ (Zpos m) 4503599627370496).
    2: lia.
    2: rewrite Z.shiftl_mul_pow2 by lia; reflexivity.
    change (new_location 4503599627370496 0) with loc_Exact.
    unfold binary_round_aux, shr_fexp.
    change (Zdigits2 (Zpos m)) with d.
    unfold fexp, emin. cbv [prec emax].
    replace (Z.max (d + e - 53) (3 - 1024 - 53) - e)%Z with 0%Z by lia.
    cbn [shr shr_record_of_loc shr_m loc_of_shr_record round_nearest_even].
    change (Zdigits2 (Zpos m)) with d.
    replace (Z.max (d + e - 53) (3 - 1024 - 53) - e)%Z with 0%Z by lia.
    cbn [shr shr_record_of_loc shr_m].
    replace (e <=? 1024 - 53)%Z with true by (symmetry; apply Z.leb_le; lia).
    rewrite xorb_false_r. reflexivity.
  - (* a normal number: the quotient has one more bit, shifted back *)
    assert (Hd : d = 53%Z) by lia.
    replace (Z.min (Z.max (d + e - (53 + -52) - 53) (3 - 1024 - 53)) (e - -52))%Z
      with (e - 1)%Z by lia.
    replace (e - -52 - (e - 1))%Z with 53%Z by lia.
    rewrite (div_eucl_exact _ (Zpos m~0) 4503599627370496).
    2: lia.
    2: rewrite Z.shiftl_mul_pow2 by lia;
       change (2 ^ 53)%Z with (2 * 4503599627370496)%Z; lia.
    change (new_location 4503599627370496 0) with loc_Exact.
    unfold binary_round_aux, shr_fexp.
    change (Zdigits2 (Zpos m~0)) with (Zpos (Pos.succ (digits2_pos m))).
    rewrite Pos2Z.inj_succ. fold d.
    unfold fexp, emin. cbv [prec emax].
    replace (Z.max (Z.succ d + (e - 1) - 53) (3 - 1024 - 53) - (e - 1))%Z
      with 1%Z by lia.
    cbn [shr shr_record_of_loc shr_m loc_of_shr_record round_nearest_even
         iter_pos shr_1 orb].
    replace (e - 1 + 1)%Z with e by lia.
    change (Zdigits2 (Zpos m)) with d.
    replace (Z.max (d + e - 53) (3 - 1024 - 53) - e)%Z with 0%Z by lia.
    cbn [shr shr_record_of_loc shr_m].
    replace (e <=? 1024 - 53)%Z with true by (symmetry; apply Z.leb_le; lia).
    rewrite xorb_false_r. reflexivity.
Qed.

Lemma div_one (x : float) : x / 1 = x.
Proof.
  apply Prim2SF_inj. rewrite FloatAxioms.div_spec.
  change (Prim2SF 1) with (S754_finite false 4503599627370496 (-52)).
  pose proof (Prim2SF_valid x) as Hv.
  unfold SF64div.
  destruct (Prim2SF x) as [s|s| |s m e].
  - simpl. rewrite xorb_false_r. reflexivity.
  - simpl. rewrite xorb_false_r. reflexivity.
  - reflexivity.
  - apply SFdiv_one. exact Hv.
Qed.

Lemma zero_mul_finite (x : float) :
  is_finite x = true -> sf_zero (Prim2SF (0 * x)) = true.
Proof.
  rewrite is_finite_spec, FloatAxioms.mul_spec.
  change (Prim2SF 0) with (S754_zero false).
  destruct (Prim2SF x) as [s|s| |s m e]; intros H; try discriminate; reflexivity.
Qed.

Lemma zero_add_leb (z c : float) :
  sf_zero (Prim2SF z) = true -> is_finite c = true -> (z + c <=? c) = true.
Proof.
  rewrite is_finite_spec, FloatAxioms.leb_spec, FloatAxioms.add_spec.
  unfold SF64add, SFleb.
  destruct (Prim2SF z) as [sz|sz| |sz mz ez]; try discriminate. intros _.
  destruct (Prim2SF c) as [s|s| |s m e]; try discriminate; intros _.
  - destruct sz, s; reflexivity.
  - unfold SFadd. rewrite SFcompare_refl. reflexivity.
Qed.
End FloatFacts.

(** ** Facts on [find] and on the folds of the selector *)

Section ListFacts.
Context {A : Type}.

(** What [find] returns is the first element that passes the test. *)
Lemma find_first (f : A -> bool) (l : list A) (b : A) :
  find f l = Some b ->
  exists before after,
    l = (before ++ b :: after)%list /\
    Forall (fun x => f x = false) before /\ f b = true.
Proof.
  induction l as [| x l IH]; simpl; intros H.
  - discriminate.
  - destruct (f x) eqn:Hx.
    + injection H as <-. exists [], l. repeat split; auto.
    + destruct (IH H) as (before & after & -> & Hb & Hfb).
      exists (x :: before), after. repeat split; auto.
Qed.

Lemma find_none_Forall (f : A -> bool) (l : list A) :
  find f l = None <-> Forall (fun x => f x = false) l.
Proof.
  induction l as [| x l IH]; simpl.
  - split; auto.
  - destruct (f x) eqn:Hx.
    + split; [discriminate |].
      intros H. inversion H; subst. congruence.
    + rewrite IH. split; intros H.
      * constructor; assumption.
      * inversion H; assumption.
Qed.

Lemma find_exists (f : A -> bool) (l : list A) (p : A) :
  In p l -> f p = true -> exists b, find f l = Some b.
Proof.
  intros Hin Hp. destruct (find f l) as [b |] eqn:Hf.
  - exists b. reflexivity.
  - apply (find_none f l Hf) in Hin. congruence.
Qed.

Lemma fold_left_map_fst {B} (g : float -> B -> float) (h : A -> B)
    (l : list A) (a : float) :
  fold_left (fun acc x => g acc (h x)) l a = fold_left g (map h l) a.
Proof.
  revert a. induction l as [| x l IH]; simpl; intros a.
  - reflexivity.
  - apply IH.
Qed.
End ListFacts.

Section SelectorFacts.
Context {JS : MathObject}.

(** The empty test: [!intents.length]. *)
Lemma length_eqb_0 {A} (l : list A) :
  Nat.eqb (length l) 0 = match l with [] => true | _ => false end.
Proof. destruct l; reflexivity. Qed.

(** The cutoff the engine computes is the cutoff of the specification. *)
Lemma cutoff_agrees (intents : list Prediction) (std : float) :
  let mean := meanBy intents Prediction.confidence in
  stdErr_of intents mean * std + mean = outlier_cutoff intents std.
Proof.
  cbv zeta. unfold outlier_cutoff, standard_error, population_std_dev, stdErr_of.
  rewrite length_map.
  rewrite <- (fold_left_map_fst
                (fun a c => a + Math_pow (c - meanBy intents Prediction.confidence) 2)
                Prediction.confidence intents 0).
  rewrite float_add_comm. f_equal. apply float_mul_comm.
Qed.

(** Below the fixed threshold everywhere, the selector is the outlier test. *)
Lemma select_below_threshold (intents : list Prediction) (t : float)
    (std : option float) :
  intents <> [] ->
  Forall (fun x => (t <=? Prediction.confidence x) = false) intents ->
  findMostConfidentPredictionMeanStd intents t std =
  match find (fun x => outlier_cutoff intents
                         (multiplier std)
                       <=? Prediction.confidence x) intents with
  | Some dominant => dominant
  | None => NonePrediction
  end.
Proof.
  intros Hne Hbelow.
  unfold findMostConfidentPredictionMeanStd, multiplier.
  rewrite length_eqb_0.
  destruct intents as [| p rest]; [congruence |].
  apply find_none_Forall in Hbelow. rewrite Hbelow.
  cbv zeta. rewrite cutoff_agrees. reflexivity.
Qed.

(** C5: on the empty list the selector returns the sentinel
    [{name: "none", confidence: 1.0}], whatever the threshold and the
    multiplier. *)
Theorem select_empty (t : float) (std : option float) :
  findMostConfidentPredictionMeanStd [] t std = Prediction.mk "none" 1.0.
Proof. reflexivity. Qed.

(** C3: when some prediction reaches the threshold, the selector returns
    the first one that does, in input order: every prediction before it is
    below the threshold, whatever the values of the others. *)
Theorem select_first_above_threshold (intents : list Prediction) (t : float)
    (std : option float) :
  (exists p, In p intents /\ (t <=? Prediction.confidence p) = true) ->
  exists before best after,
    intents = (before ++ best :: after)%list /\
    Forall (fun x => (t <=? Prediction.confidence x) = false) before /\
    (t <=? Prediction.confidence best) = true /\
    findMostConfidentPredictionMeanStd intents t std = best.
Proof.
  intros (p & Hin & Hp).
  destruct (find_exists (fun x => t <=? Prediction.confidence x) intents p Hin Hp)
    as (best & Hfind).
  destruct (find_first _ _ _ Hfind) as (before & after & Hsplit & Hbefore & Hbest).
  exists before, best, after. repeat split; auto.
  unfold findMostConfidentPredictionMeanStd.
  rewrite length_eqb_0, Hfind.
  destruct intents; [contradiction | reflexivity].
Qed.

(** The sum lodash accumulates from a first value is the sum of the values. *)
Lemma baseSum_from {A} (iteratee : A -> float) (rest : list A) (acc : float) :
  fold_left
    (fun result x =>
       match result with
       | None => Some (iteratee x)
       | Some r => Some (r + iteratee x)
       end)
    rest (Some acc)
  = Some (fold_left PrimFloat.add (map iteratee rest) acc).
Proof.
  revert acc. induction rest as [| x rest IH]; intros acc; cbn [fold_left map].
  - reflexivity.
  - apply IH.
Qed.

(** On a non-empty array, what [meanBy] computes is the arithmetic mean of
    the values: their sum over their count. *)
Lemma meanBy_arithmetic_mean {A} (array : list A) (iteratee : A -> float) :
  array <> [] ->
  meanBy array iteratee = arithmetic_mean (map iteratee array).
Proof.
  intros Hne. destruct array as [| x rest]; [congruence |].
  unfold meanBy, baseSum, arithmetic_mean, sum_of.
  cbn [length fold_left map]. rewrite baseSum_from, length_map. reflexivity.
Qed.

(** On a non-empty list, the cutoff of the engine is the specified one. *)
Lemma outlier_cutoff_specified (intents : list Prediction) (m : float) :
  intents <> [] -> outlier_cutoff intents m = specified_cutoff intents m.
Proof.
  intros Hne. unfold outlier_cutoff, specified_cutoff, standard_error.
  cbv zeta. rewrite (meanBy_arithmetic_mean intents Prediction.confidence Hne).
  reflexivity.
Qed.

(** C4: on a non-empty list where no confidence reaches the threshold, the
    selector returns the first prediction whose confidence reaches
    [mu + stdDevMultiplier * stderr], with [mu] the arithmetic mean of the
    confidences (their sum over their count), [stderr] their population
    standard deviation over [sqrt n] and the multiplier 3 when none is
    given; it returns the sentinel when no prediction reaches that cutoff. *)
Theorem select_outlier_fallback (intents : list Prediction) (t : float)
    (std : option float) :
  intents <> [] ->
  Forall (fun x => (t <=? Prediction.confidence x) = false) intents ->
  let cutoff := specified_cutoff intents (multiplier std) in
  (exists before dominant after,
      intents = (before ++ dominant :: after)%list /\
      Forall (fun x => (cutoff <=? Prediction.confidence x) = false) before /\
      (cutoff <=? Prediction.confidence dominant) = true /\
      findMostConfidentPredictionMeanStd intents t std = dominant)
  \/ (Forall (fun x => (cutoff <=? Prediction.confidence x) = false) intents /\
      findMostConfidentPredictionMeanStd intents t std = NonePrediction).
Proof.
  intros Hne Hbelow cutoff.
  rewrite (select_below_threshold intents t std Hne Hbelow).
  rewrite (outlier_cutoff_specified intents (multiplier std) Hne). fold cutoff.
  destruct (find (fun x => cutoff <=? Prediction.confidence x) intents)
    as [dominant |] eqn:Hfind.
  - left. destruct (find_first _ _ _ Hfind) as (before & after & Hs & Hb & Hd).
    exists before, dominant, after. repeat split; auto.
  - right. split; [| reflexivity]. apply find_none_Forall. exact Hfind.
Qed.
End SelectorFacts.

Section EqualConfidences.
Context {JS : MathObject}.

Lemma below_threshold (c t : float) : (c <? t) = true -> (t <=? c) = false.
Proof. intros H. rewrite leb_ltb, H. reflexivity. Qed.

(** A single prediction: the mean is its confidence and the standard error
    is zero, so the cutoff is its confidence. *)
Lemma singleton_cutoff (p : Prediction) (m : float) :
  exact_on_zero_and_one JS ->
  is_finite (Prediction.confidence p) = true ->
  is_finite m = true ->
  (outlier_cutoff [p] m <=? Prediction.confidence p) = true.
Proof.
  intros (Hpow & Hsqrt0 & Hsqrt1) Hc Hm.
  unfold outlier_cutoff, standard_error, population_std_dev, meanBy, baseSum.
  cbn [map length fold_left].
  change (Number 1) with 1.
  rewrite div_one, (sub_diag _ Hc), Hpow.
  change (0 + 0) with 0. change (0 / 1) with 0.
  rewrite Hsqrt0, Hsqrt1. change (0 / 1) with 0.
  rewrite float_add_comm, float_mul_comm.
  apply zero_add_leb; [apply zero_mul_finite |]; assumption.
Qed.

(** C9, as the engine behaves: a single prediction with a finite
    confidence strictly below the threshold is returned, for every finite
    multiplier; on a longer list of equal confidences strictly below the
    threshold the first prediction is returned exactly when the computed
    cutoff does not exceed the common confidence, and the sentinel
    otherwise. *)
Theorem select_equal_confidences :
  (forall (p : Prediction) (t : float) (std : option float),
      exact_on_zero_and_one JS ->
      is_finite (Prediction.confidence p) = true ->
      is_finite (multiplier std) = true ->
      (Prediction.confidence p <? t) = true ->
      findMostConfidentPredictionMeanStd [p] t std = p)
  /\ (forall (first : Prediction) (rest : list Prediction) (c t : float)
             (std : option float),
         Forall (fun x => Prediction.confidence x = c) (first :: rest) ->
         (c <? t) = true ->
         findMostConfidentPredictionMeanStd (first :: rest) t std =
         if outlier_cutoff (first :: rest) (multiplier std) <=? c
         then first else NonePrediction).
Proof.
  split.
  - intros p t std HJS Hc Hm Hlt.
    rewrite select_below_threshold.
    + cbn [find]. rewrite (singleton_cutoff p (multiplier std) HJS Hc Hm). reflexivity.
    + discriminate.
    + constructor; [apply below_threshold; assumption | constructor].
  - intros first rest c t std Hall Hlt.
    rewrite select_below_threshold.
    + set (cutoff := outlier_cutoff (first :: rest) (multiplier std)).
      inversion Hall as [| x l Hfirst Hrest]; subst.
      cbn [find]. destruct (cutoff <=? Prediction.confidence first) eqn:Hcut.
      * reflexivity.
      * assert (Hnone : find (fun x => cutoff <=? Prediction.confidence x) rest = None).
        { apply find_none_Forall.
          eapply Forall_impl; [| exact Hrest].
          intros x Hx. simpl in Hx. rewrite Hx. exact Hcut. }
        rewrite Hnone. reflexivity.
    + discriminate.
    + eapply Forall_impl; [| exact Hall].
      intros x Hx. simpl in Hx. rewrite Hx. apply below_threshold. exact Hlt.
Qed.
End EqualConfidences.

(** *** The selector on the scenarios of the specification *)

Example select_greet :
  findMostConfidentPredictionMeanStd (JS := ieee_Math)
    [Prediction.mk "greet" 0.9; Prediction.mk "bye" 0.4] 0.7 None
  = Prediction.mk "greet" 0.9.
Proof. reflexivity. Qed.

Example select_no_outlier :
  findMostConfidentPredictionMeanStd (JS := ieee_Math)
    [Prediction.mk "a" 0.30; Prediction.mk "b" 0.35; Prediction.mk "c" 0.32]
    0.99 (Some 3)
  = NonePrediction.
Proof. reflexivity. Qed.

Example mean_of_three_tenths :
  meanBy [Prediction.mk "a" 0.1; Prediction.mk "b" 0.1; Prediction.mk "c" 0.1]
         Prediction.confidence
  = 0.10000000000000002.
Proof. reflexivity. Qed.

(** No prediction reaches 0.7, and the last one stands out of the others:
    the mean is about 0.3195, the cutoff about 0.3765, and the outlier is
    selected. *)
Example select_dominant :
  let intents := [Prediction.mk "a" 0.3; Prediction.mk "b" 0.3;
                  Prediction.mk "c" 0.3; Prediction.mk "d" 0.3;
                  Prediction.mk "e" 0.3; Prediction.mk "f" 0.3;
                  Prediction.mk "g" 0.3; Prediction.mk "h" 0.3;
                  Prediction.mk "i" 0.3; Prediction.mk "j" 0.3;
                  Prediction.mk "k" 0.3; Prediction.mk "l" 0.3;
                  Prediction.mk "m" 0.3; Prediction.mk "n" 0.3;
                  Prediction.mk "o" 0.3; Prediction.mk "p" 0.3;
                  Prediction.mk "q" 0.3; Prediction.mk "r" 0.3;
                  Prediction.mk "s" 0.3; Prediction.mk "dom" 0.69] in
  findMostConfidentPredictionMeanStd (JS := ieee_Math) intents 0.7 None
  = Prediction.mk "dom" 0.69
  /\ (specified_cutoff (JS := ieee_Math) intents 3 <=? 0.69) = true
  /\ (specified_cutoff (JS := ieee_Math) intents 3 <=? 0.3) = false.
Proof. cbv zeta. repeat split. Qed.

Lemma select_first_above_threshold_witness :
  (exists p, In p [Prediction.mk "greet" 0.9; Prediction.mk "bye" 0.4] /\
             (0.7 <=? Prediction.confidence p) = true)
  /\ exists before best after,
      [Prediction.mk "greet" 0.9; Prediction.mk "bye" 0.4]
      = (before ++ best :: after)%list /\
      Forall (fun x => (0.7 <=? Prediction.confidence x) = false) before /\
      (0.7 <=? Prediction.confidence best) = true /\
      findMostConfidentPredictionMeanStd (JS := ieee_Math)
        [Prediction.mk "greet" 0.9; Prediction.mk "bye" 0.4] 0.7 None = best.
Proof.
  assert (H : exists p, In p [Prediction.mk "greet" 0.9; Prediction.mk "bye" 0.4] /\
                        (0.7 <=? Prediction.confidence p) = true).
  { exists (Prediction.mk "greet" 0.9). split; [left; reflexivity | reflexivity]. }
  split; [exact H |].
  exact (select_first_above_threshold (JS := ieee_Math) _ 0.7 None H).
Defined.

Lemma select_outlier_fallback_witness :
  let intents := [Prediction.mk "a" 0.30; Prediction.mk "b" 0.35; Prediction.mk "c" 0.32] in
  let cutoff := specified_cutoff (JS := ieee_Math) intents 3 in
  intents <> [] /\
  Forall (fun x => (0.99 <=? Prediction.confidence x) = false) intents /\
  ((exists before dominant after,
       intents = (before ++ dominant :: after)%list /\
       Forall (fun x => (cutoff <=? Prediction.confidence x) = false) before /\
       (cutoff <=? Prediction.confidence dominant) = true /\
       findMostConfidentPredictionMeanStd (JS := ieee_Math) intents 0.99 (Some 3)
       = dominant)
   \/ (Forall (fun x => (cutoff <=? Prediction.confidence x) = false) intents /\
       findMostConfidentPredictionMeanStd (JS := ieee_Math) intents 0.99 (Some 3)
       = NonePrediction)).
Proof.
  intros intents cutoff.
  assert (Hne : intents <> []) by discriminate.
  assert (Hbelow : Forall (fun x => (0.99 <=? Prediction.confidence x) = false) intents).
  { repeat constructor. }
  split; [exact Hne |]. split; [exact Hbelow |].
  exact (select_outlier_fallback (JS := ieee_Math) intents 0.99 (Some 3) Hne Hbelow).
Defined.

(** The claim of C9 fails on three predictions of confidence 0.1: the mean
    of the three is rounded up to 0.10000000000000002, the cutoff lies above
    every confidence, and the selector returns the sentinel. *)
Lemma select_equal_confidences_counterexample :
  let intents := [Prediction.mk "a" 0.1; Prediction.mk "b" 0.1; Prediction.mk "c" 0.1] in
  Forall (fun x => Prediction.confidence x = 0.1) intents /\
  (0.1 <? 0.7) = true /\
  findMostConfidentPredictionMeanStd (JS := ieee_Math) intents 0.7 None
  = NonePrediction /\
  findMostConfidentPredictionMeanStd (JS := ieee_Math) intents 0.7 None
  <> Prediction.mk "a" 0.1.
Proof.
  cbv zeta. split; [repeat constructor |]. split; [reflexivity |].
  split; [reflexivity |]. discriminate.
Qed.

Lemma select_equal_confidences_witness :
  exact_on_zero_and_one ieee_Math /\
  is_finite 0.5 = true /\ is_finite (multiplier None) = true /\
  (0.5 <? 0.7) = true /\
  findMostConfidentPredictionMeanStd (JS := ieee_Math) [Prediction.mk "a" 0.5] 0.7 None
  = Prediction.mk "a" 0.5.
Proof.
  assert (HJS : exact_on_zero_and_one ieee_Math) by (repeat split).
  split; [exact HJS |]. split; [reflexivity |]. split; [reflexivity |].
  split; [reflexivity |].
  exact (proj1 (select_equal_confidences (JS := ieee_Math))
           (Prediction.mk "a" 0.5) 0.7 None HJS eq_refl eq_refl eq_refl).
Defined.

(** ** Facts on methods *)

Section ExecFacts.
Context {S A B : Type}.

Lemma bind_Normal (m : Exec S A) (k : A -> Exec S B) (s s' : S) (a : A) :
  m s = (Normal a, s') -> bind m k s = k a s'.
Proof. intros H. unfold bind. rewrite H. reflexivity. Qed.

Lemma bind_Throw (m : Exec S A) (k : A -> Exec S B) (s s' : S) (e : Error) :
  m s = (Throw e, s') -> bind m k s = (Throw e, s').
Proof. intros H. unfold bind. rewrite H. reflexivity. Qed.

Lemma try_catch_Normal (m : Exec S A) (h : Error -> Exec S A) (s s' : S) (a : A) :
  m s = (Normal a, s') -> try_catch m h s = (Normal a, s').
Proof. intros H. unfold try_catch. rewrite H. reflexivity. Qed.
End ExecFacts.

Section EngineFacts.
Context {sdk : SdkTypes} {JS : MathObject} {pipelines : Pipelines}.
Context {W C : Type}.
Context {storage : Storage.t W} {logger : Logger.t W}
        {langDetector : LanguageIdentifier.t W}
        {systemEntityExtractor : EntityExtractor.t W}
        {slotExtractor : SlotExtractor.t W}
        {file_system : fs.t W} {clock : Date.t W}
        {classifier : IntentClassifier.t C}.

Local Abbreviation Engine := (@ScopedEngine sdk W C).
Local Abbreviation Method := (Exec Engine).

Lemma on_world_eq {A} (c : Call) (op : Exec W A) (this : Engine)
    (r : Completion A) (w : W) :
  op (world this) = (r, w) ->
  on_world c op this
  = (r, mkEngine (confidenceTreshold this) (intentClassifier this) w
                 (calls this ++ [c])).
Proof. intros H. unfold on_world. rewrite H. reflexivity. Qed.

Lemma on_classifier_eq {A} (c : Call) (op : Exec C A) (this : Engine)
    (r : Completion A) (cl : C) :
  op (intentClassifier this) = (r, cl) ->
  on_classifier c op this
  = (r, mkEngine (confidenceTreshold this) cl (world this) (calls this ++ [c])).
Proof. intros H. unfold on_classifier. rewrite H. reflexivity. Qed.

Section Combinators.
Context {A B : Type}.

Lemma keeps_threshold_bind (m : Method A) (k : A -> Method B) :
  keeps_threshold m -> (forall a, keeps_threshold (k a)) ->
  keeps_threshold (bind m k).
Proof.
  intros Hm Hk this. unfold bind. specialize (Hm this).
  destruct (m this) as [[a | e] this1]; simpl in *.
  - rewrite Hk. exact Hm.
  - exact Hm.
Qed.

Lemma keeps_threshold_try_catch (m : Method A) (h : Error -> Method A) :
  keeps_threshold m -> (forall e, keeps_threshold (h e)) ->
  keeps_threshold (try_catch m h).
Proof.
  intros Hm Hh this. unfold try_catch. specialize (Hm this).
  destruct (m this) as [[a | e] this1]; simpl in *.
  - exact Hm.
  - rewrite Hh. exact Hm.
Qed.

Lemma keeps_threshold_on_world (c : Call) (op : Exec W A) :
  keeps_threshold (on_world c op : Method A).
Proof.
  intros this. unfold on_world. destruct (op (world this)). reflexivity.
Qed.

Lemma keeps_threshold_on_classifier (c : Call) (op : Exec C A) :
  keeps_threshold (on_classifier c op : Method A).
Proof.
  intros this. unfold on_classifier.
  destruct (op (intentClassifier this)). reflexivity.
Qed.

Lemma keeps_threshold_pure (a : A) : keeps_threshold (pure a : Method A).
Proof. intros this. reflexivity. Qed.

Lemma keeps_threshold_call_pure (r : Completion A) :
  keeps_threshold (call_pure r : Method A).
Proof. intros this. reflexivity. Qed.

Lemma keeps_threshold_if (b : bool) (m1 m2 : Method A) :
  keeps_threshold m1 -> keeps_threshold m2 ->
  keeps_threshold (if b then m1 else m2).
Proof. destruct b; auto. Qed.

Lemma keeps_classifier_bind (m : Method A) (k : A -> Method B) :
  keeps_classifier m -> (forall a, keeps_classifier (k a)) ->
  keeps_classifier (bind m k).
Proof.
  intros Hm Hk this. unfold bind. specialize (Hm this).
  destruct (m this) as [[a | e] this1]; simpl in *.
  - rewrite Hk. exact Hm.
  - exact Hm.
Qed.

Lemma keeps_classifier_try_catch (m : Method A) (h : Error -> Method A) :
  keeps_classifier m -> (forall e, keeps_classifier (h e)) ->
  keeps_classifier (try_catch m h).
Proof.
  intros Hm Hh this. unfold try_catch. specialize (Hm this).
  destruct (m this) as [[a | e] this1]; simpl in *.
  - exact Hm.
  - rewrite Hh. exact Hm.
Qed.

Lemma keeps_classifier_on_world (c : Call) (op : Exec W A) :
  keeps_classifier (on_world c op : Method A).
Proof.
  intros this. unfold on_world. destruct (op (world this)). reflexivity.
Qed.

Lemma keeps_classifier_call_pure (r : Completion A) :
  keeps_classifier (call_pure r : Method A).
Proof. intros this. reflexivity. Qed.

Lemma only_calls_bind (P : Call -> Prop) (m : Method A) (k : A -> Method B) :
  only_calls P m -> (forall a, only_calls P (k a)) ->
  only_calls P (bind m k).
Proof.
  intros Hm Hk this. unfold bind.
  destruct (Hm this) as (new & Hnew & HP).
  destruct (m this) as [[a | e] this1]; simpl in *.
  - destruct (Hk a this1) as (new' & Hnew' & HP').
    exists (new ++ new')%list. split.
    + rewrite Hnew', Hnew, app_assoc. reflexivity.
    + apply Forall_app. split; assumption.
  - exists new. split; assumption.
Qed.

Lemma only_calls_try_catch (P : Call -> Prop) (m : Method A)
    (h : Error -> Method A) :
  only_calls P m -> (forall e, only_calls P (h e)) ->
  only_calls P (try_catch m h).
Proof.
  intros Hm Hh this. unfold try_catch.
  destruct (Hm this) as (new & Hnew & HP).
  destruct (m this) as [[a | e] this1]; simpl in *.
  - exists new. split; assumption.
  - destruct (Hh e this1) as (new' & Hnew' & HP').
    exists (new ++ new')%list. split.
    + rewrite Hnew', Hnew, app_assoc. reflexivity.
    + apply Forall_app. split; assumption.
Qed.

Lemma only_calls_on_world (P : Call -> Prop) (c : Call) (op : Exec W A) :
  P c -> only_calls P (on_world c op : Method A).
Proof.
  intros Hc this. unfold on_world. destruct (op (world this)).
  exists [c]. split; [reflexivity | repeat constructor; exact Hc].
Qed.

Lemma only_calls_call_pure (P : Call -> Prop) (r : Completion A) :
  only_calls P (call_pure r : Method A).
Proof.
  intros this. exists []. split; [symmetry; apply app_nil_r | constructor].
Qed.
End Combinators.

Lemma calls_since_app (before new : list Call) :
  calls_since before (before ++ new) = new.
Proof.
  unfold calls_since. rewrite skipn_app, Nat.sub_diag, skipn_all.
  reflexivity.
Qed.

Lemma slot_training_keeps_classifier (intents : list Intent) :
  keeps_classifier (slot_training intents : Method unit).
Proof.
  apply keeps_classifier_try_catch.
  - apply keeps_classifier_bind.
    + apply keeps_classifier_call_pure.
    + intros ts. apply keeps_classifier_on_world.
  - intros e. apply keeps_classifier_on_world.
Qed.

Lemma slot_training_calls (intents : list Intent) :
  only_calls not_to_classifier (slot_training intents : Method unit).
Proof.
  apply only_calls_try_catch.
  - apply only_calls_bind.
    + apply only_calls_call_pure.
    + intros ts. apply only_calls_on_world. exact I.
  - intros e. apply only_calls_on_world. exact I.
Qed.

(** *** The methods of the engine leave the threshold alone *)

Ltac keeps_threshold_tac :=
  repeat (intros; cbv beta;
          first [ apply keeps_threshold_bind
                | apply keeps_threshold_try_catch
                | apply keeps_threshold_if
                | apply keeps_threshold_on_world
                | apply keeps_threshold_on_classifier
                | apply keeps_threshold_pure
                | apply keeps_threshold_call_pure
                | (intros ?; reflexivity) ]).

Lemma sync_keeps_threshold : keeps_threshold (sync : Method unit).
Proof.
  unfold sync, _loadModel, _trainModel, slot_training, Date_now.
  keeps_threshold_tac.
Qed.

Lemma checkSyncNeeded_keeps_threshold :
  keeps_threshold (checkSyncNeeded : Method bool).
Proof.
  unfold checkSyncNeeded, get_currentModelId. keeps_threshold_tac.
Qed.

(** The guard of [init] is the negation of "in [0, 1]". *)
Lemma init_guard (v : float) :
  isNaN v || (v <? 0) || (1 <? v) = negb ((0 <=? v) && (v <=? 1)).
Proof.
  unfold isNaN. rewrite (leb_ltb 0 v), (leb_ltb v 1).
  change (is_nan 0) with false. change (is_nan 1) with false.
  destruct (is_nan v), (v <? 0), (1 <? v); reflexivity.
Qed.

(** C8: after [init] the threshold is a number of [0, 1]: the configured
    value when it is a number of [0, 1], and the default 0.7 when it is
    absent, [NaN], below 0 or above 1. This holds however the
    synchronisation that follows ends. *)
Theorem init_threshold (config : Config) (this : Engine) :
  let t := threshold_policy (config_confidenceTreshold config) in
  confidenceTreshold (snd (init config this)) = Some t
  /\ (0 <=? t) = true /\ (t <=? 1) = true
  /\ t = match config_confidenceTreshold config with
         | None => 0.7
         | Some v => if isNaN v || (v <? 0) || (1 <? v) then 0.7 else v
         end.
Proof.
  cbv zeta. split; [| split; [| split]].
  - unfold init.
    assert (Hrest : forall this2 : Engine,
               confidenceTreshold
                 (snd ((needed <- checkSyncNeeded ;;
                        if needed : bool then sync else pure tt) this2))
               = confidenceTreshold this2).
    { intros this2.
      assert (H : keeps_threshold (needed <- checkSyncNeeded ;;
                                   if needed : bool then sync else pure tt
                                   : Method unit)).
      { apply keeps_threshold_bind.
        - apply checkSyncNeeded_keeps_threshold.
        - intros needed. apply keeps_threshold_if.
          + apply sync_keeps_threshold.
          + apply keeps_threshold_pure. }
      apply H. }
    unfold bind at 1 2 3. unfold set_confidenceTreshold at 1.
    unfold get_confidenceTreshold. cbn [confidenceTreshold].
    destruct (config_confidenceTreshold config) as [v |]; cbn [ToNumber threshold_policy].
    + rewrite init_guard.
      destruct ((0 <=? v) && (v <=? 1)); cbn [negb];
        unfold set_confidenceTreshold, pure; rewrite Hrest; reflexivity.
    + change (isNaN nan || (nan <? 0) || (1 <? nan)) with true.
      unfold set_confidenceTreshold. rewrite Hrest. reflexivity.
  - destruct (config_confidenceTreshold config) as [v |]; cbn [threshold_policy].
    + destruct ((0 <=? v) && (v <=? 1)) eqn:Hin; [| reflexivity].
      apply andb_prop in Hin. apply Hin.
    + reflexivity.
  - destruct (config_confidenceTreshold config) as [v |]; cbn [threshold_policy].
    + destruct ((0 <=? v) && (v <=? 1)) eqn:Hin; [| reflexivity].
      apply andb_prop in Hin. apply Hin.
    + reflexivity.
  - destruct (config_confidenceTreshold config) as [v |]; cbn [threshold_policy].
    + rewrite init_guard. destruct ((0 <=? v) && (v <=? 1)); reflexivity.
    + reflexivity.
Qed.

(** *** The sync check *)

Lemma strict_neq_true (a : option string) (b : string) :
  strict_neq a b = true <-> a <> Some b.
Proof.
  destruct a as [a' |]; simpl.
  - rewrite negb_true_iff. destruct (String.eqb_spec a' b) as [-> | Hne].
    + split; [discriminate | congruence].
    + split; [congruence | reflexivity].
  - split; [discriminate | reflexivity].
Qed.

(** C6: when the storage returns the intents, [checkSyncNeeded] returns
    [true] exactly when there is at least one intent and the identifier of
    the model the classifier holds differs from the hash of the intents;
    without intents it returns [false], whatever the classifier holds. *)
Theorem checkSyncNeeded_iff (this : Engine) (intents : list Intent) (w : W) :
  Storage.getIntents (world this) = (Normal intents, w) ->
  exists (needed : bool) (this' : Engine),
    checkSyncNeeded this = (Normal needed, this')
    /\ (needed = true <->
         intents <> [] /\
         IntentClassifier.currentModelId (intentClassifier this)
         <> Some (_getIntentsHash intents))
    /\ (intents = [] -> needed = false).
Proof.
  intros Hget. unfold checkSyncNeeded.
  rewrite (bind_Normal _ _ _ _ _ (on_world_eq storage_getIntents _ _ _ _ Hget)).
  rewrite length_eqb_0.
  destruct intents as [| i rest]; cbn [negb].
  - eexists. eexists. split; [reflexivity |]. split.
    + split; [discriminate | intros [H _]; congruence].
    + reflexivity.
  - unfold bind, get_currentModelId, pure. cbn [intentClassifier].
    eexists. eexists. split; [reflexivity |]. split.
    + rewrite strict_neq_true. split.
      * intros H. split; [discriminate | exact H].
      * intros [_ H]. exact H.
    + discriminate.
Qed.

(** *** The two branches of [sync] *)

Ltac run_world H :=
  erewrite bind_Normal by (apply on_world_eq; cbn [world]; exact H);
  cbv beta zeta.

Ltac run_classifier H :=
  erewrite bind_Normal by (apply on_classifier_eq; cbn [intentClassifier]; exact H);
  cbv beta zeta.

Lemma _loadModel_Normal (modelHash : string) (this : Engine) (w1 w2 : W)
    (model : Buffer) (c' : C) :
  Logger.debug ("Restoring intents model '" ++ modelHash ++ "' from storage")
               (world this) = (Normal tt, w1) ->
  Storage.getModelAsBuffer modelHash w1 = (Normal model, w2) ->
  IntentClassifier.loadModel model modelHash (intentClassifier this)
  = (Normal tt, c') ->
  _loadModel modelHash this
  = (Normal tt,
     mkEngine (confidenceTreshold this) c' w2
       (calls this ++
        [logger_debug ("Restoring intents model '" ++ modelHash ++ "' from storage");
         storage_getModelAsBuffer modelHash;
         intentClassifier_loadModel model modelHash])).
Proof.
  intros Hdebug Hbuffer Hload. unfold _loadModel.
  run_world Hdebug. run_world Hbuffer.
  erewrite on_classifier_eq by (cbn [intentClassifier]; exact Hload).
  cbn [confidenceTreshold world calls]. rewrite <- !app_assoc. reflexivity.
Qed.

Lemma _trainModel_Normal (intents : list Intent) (modelHash : string)
    (this : Engine) (w1 w2 w3 w4 : W) (path : string) (c1 : C) (model : Buffer) :
  Logger.debug "The intents model needs to be updated, training model ..."
               (world this) = (Normal tt, w1) ->
  IntentClassifier.train intents modelHash (intentClassifier this)
  = (Normal path, c1) ->
  fs.readFileSync path w1 = (Normal model, w2) ->
  Storage.persistModel model
    (string_of_Z (Date.now w2) ++ "__" ++ modelHash ++ ".bin") w2
  = (Normal tt, w3) ->
  Logger.debug "Intents done training" w3 = (Normal tt, w4) ->
  _trainModel intents modelHash this
  = (Normal tt,
     mkEngine (confidenceTreshold this) c1 w4
       (calls this ++
        [logger_debug "The intents model needs to be updated, training model ...";
         intentClassifier_train intents modelHash;
         fs_readFileSync path;
         storage_persistModel model
           (string_of_Z (Date.now w2) ++ "__" ++ modelHash ++ ".bin");
         logger_debug "Intents done training"])).
Proof.
  intros Hdebug Htrain Hread Hpersist Hdone. unfold _trainModel.
  apply try_catch_Normal.
  run_world Hdebug. run_classifier Htrain. run_world Hread.
  unfold Date_now at 1. unfold bind at 1. cbn [world].
  run_world Hpersist.
  erewrite on_world_eq by (cbn [world]; exact Hdone).
  cbn [confidenceTreshold intentClassifier calls].
  rewrite <- !app_assoc. reflexivity.
Qed.

Lemma not_to_classifier_not_training (c : Call) :
  not_to_classifier c -> not_intent_training c.
Proof. destruct c; simpl; auto. Qed.

Lemma not_to_classifier_not_loading (c : Call) :
  not_to_classifier c -> not_model_loading c.
Proof. destruct c; simpl; auto. Qed.

(** C7: when a model is persisted under the hash of the intents, [sync]
    reads it and loads it into the classifier under that hash: the
    classifier's current model id is the hash afterwards, and no call of
    this [sync] trains the intent classifier. *)
Theorem sync_loads_persisted_model (this : Engine) (intents : list Intent)
    (w1 w2 w3 w4 : W) (model : Buffer) (c' : C) :
  let modelHash := _getIntentsHash intents in
  Storage.getIntents (world this) = (Normal intents, w1) ->
  Storage.modelExists modelHash w1 = (Normal true, w2) ->
  Logger.debug ("Restoring intents model '" ++ modelHash ++ "' from storage") w2
  = (Normal tt, w3) ->
  Storage.getModelAsBuffer modelHash w3 = (Normal model, w4) ->
  IntentClassifier.loadModel model modelHash (intentClassifier this)
  = (Normal tt, c') ->
  let this' := snd (sync this) in
  let made := calls_since (calls this) (calls this') in
  intentClassifier this' = c'
  /\ IntentClassifier.currentModelId (intentClassifier this') = Some modelHash
  /\ In (intentClassifier_loadModel model modelHash) made
  /\ Forall not_intent_training made.
Proof.
  intros modelHash Hget Hexists Hdebug Hbuffer Hload this' made.
  assert (Hclassifier : intentClassifier this' = c'
          /\ exists new, made =
               ([storage_getIntents; storage_modelExists modelHash;
                 logger_debug ("Restoring intents model '" ++ modelHash
                               ++ "' from storage");
                 storage_getModelAsBuffer modelHash;
                 intentClassifier_loadModel model modelHash] ++ new)%list
               /\ Forall not_to_classifier new).
  { subst made this'. unfold sync.
    run_world Hget. fold modelHash. run_world Hexists.
    erewrite bind_Normal
      by (apply _loadModel_Normal with (w1 := w3) (w2 := w4) (model := model)
            (c' := c'); cbn [world intentClassifier]; assumption).
    cbn [confidenceTreshold calls].
    match goal with
    | |- context [slot_training intents ?st] =>
        pose proof (slot_training_keeps_classifier intents st) as Hkeep;
        destruct (slot_training_calls intents st) as (new & Hnew & Hall)
    end.
    split.
    - rewrite Hkeep. reflexivity.
    - exists new. split; [| exact Hall].
      rewrite Hnew. cbn [calls]. rewrite <- !app_assoc. cbn [app].
      rewrite calls_since_app. reflexivity. }
  destruct Hclassifier as (Hc & new & Hmade & Hnew).
  split; [exact Hc |]. split.
  - rewrite Hc. eapply IntentClassifier.loadModel_tags. exact Hload.
  - split.
    + rewrite Hmade. cbn. auto 10.
    + rewrite Hmade. repeat (constructor; [exact I |]).
      eapply Forall_impl; [| exact Hnew].
      apply not_to_classifier_not_training.
Qed.

(** C1, as the engine behaves: when no model is persisted under the hash
    of the intents and every step succeeds, [sync] trains the classifier on
    the intents under that hash, reads the artifact and persists it as
    [{timestamp}__{hash}.bin]; it loads nothing into the classifier, which
    is left as the training left it. *)
Theorem sync_trains_and_persists (this : Engine) (intents : list Intent)
    (w1 w2 w3 w4 w5 w6 : W) (path : string) (c1 : C) (model : Buffer) :
  let modelHash := _getIntentsHash intents in
  let intentModelName := string_of_Z (Date.now w4) ++ "__" ++ modelHash ++ ".bin" in
  Storage.getIntents (world this) = (Normal intents, w1) ->
  Storage.modelExists modelHash w1 = (Normal false, w2) ->
  Logger.debug "The intents model needs to be updated, training model ..." w2
  = (Normal tt, w3) ->
  IntentClassifier.train intents modelHash (intentClassifier this)
  = (Normal path, c1) ->
  fs.readFileSync path w3 = (Normal model, w4) ->
  Storage.persistModel model intentModelName w4 = (Normal tt, w5) ->
  Logger.debug "Intents done training" w5 = (Normal tt, w6) ->
  let this' := snd (sync this) in
  let made := calls_since (calls this) (calls this') in
  (exists rest,
      made =
      ([storage_getIntents; storage_modelExists modelHash;
        logger_debug "The intents model needs to be updated, training model ...";
        intentClassifier_train intents modelHash;
        fs_readFileSync path;
        storage_persistModel model intentModelName;
        logger_debug "Intents done training"] ++ rest)%list
      /\ Forall not_to_classifier rest)
  /\ Forall not_model_loading made
  /\ intentClassifier this' = c1.
Proof.
  intros modelHash intentModelName Hget Hexists Hdebug Htrain Hread Hpersist
         Hdone this' made.
  assert (Hrun : intentClassifier this' = c1
          /\ exists rest, made =
               ([storage_getIntents; storage_modelExists modelHash;
                 logger_debug "The intents model needs to be updated, training model ...";
                 intentClassifier_train intents modelHash;
                 fs_readFileSync path;
                 storage_persistModel model intentModelName;
                 logger_debug "Intents done training"] ++ rest)%list
               /\ Forall not_to_classifier rest).
  { subst made this'. unfold sync.
    run_world Hget. fold modelHash. run_world Hexists.
    erewrite bind_Normal
      by (apply _trainModel_Normal with (w1 := w3) (w2 := w4) (w3 := w5)
            (w4 := w6) (path := path) (c1 := c1) (model := model);
          cbn [world intentClassifier]; assumption).
    cbn [confidenceTreshold calls]. fold intentModelName.
    match goal with
    | |- context [slot_training intents ?st] =>
        pose proof (slot_training_keeps_classifier intents st) as Hkeep;
        destruct (slot_training_calls intents st) as (new & Hnew & Hall)
    end.
    split.
    - rewrite Hkeep. reflexivity.
    - exists new. split; [| exact Hall].
      rewrite Hnew. cbn [calls]. rewrite <- !app_assoc. cbn [app].
      rewrite calls_since_app. reflexivity. }
  destruct Hrun as (Hc & rest & Hmade & Hrest).
  split; [exists rest; split; assumption |]. split; [| exact Hc].
  rewrite Hmade. repeat (constructor; [exact I |]).
  eapply Forall_impl; [| exact Hrest].
  apply not_to_classifier_not_loading.
Qed.

(** *** The extraction pipeline *)

Lemma this__keeps_local {L A} (m : Method A) (ls : L * Engine) :
  fst (snd (this_ m ls)) = fst ls.
Proof. unfold this_. destruct (m (snd ls)). reflexivity. Qed.

(** [_extract] returns the local object, as the [try] block left it. *)
Lemma _extract_returns (ev : Event.t) (this : Engine) :
  exists this',
    _extract ev this
    = (Normal (fst (snd (_extract_try ev (initial_result, this)))), this').
Proof.
  unfold _extract, with_local, finally_return, read_local, try_catch.
  destruct (_extract_try ev (initial_result, this)) as [[[] | e] [ret this1]].
  - cbn. eexists. reflexivity.
  - cbn [fst snd].
    pose proof (this__keeps_local
                  (on_world (logger_warn ("Could not extract whole NLU data, " ++ e))
                            (Logger.warn ("Could not extract whole NLU data, " ++ e)))
                  (ret, this1)) as Hkeep.
    destruct (this_ _ (ret, this1)) as [r [ret' this2]].
    cbn in *. subst ret'. eexists. reflexivity.
Qed.

Ltac next_call :=
  match goal with
  | |- context [createIntentMatcher ?name] =>
      destruct (createIntentMatcher name); cbn
  | |- context [extractPatternEntities ?text ?defs] =>
      destruct (extractPatternEntities text defs); cbn
  | |- context [extractListEntities ?text ?defs] =>
      destruct (extractListEntities text defs); cbn
  | |- context [match ?x with pair _ _ => _ end] =>
      lazymatch type of x with
      | (Completion _ * W)%type => destruct x as [[? | ?] ?]; cbn
      | (Completion _ * C)%type => destruct x as [[? | ?] ?]; cbn
      end
  end.

(** The local object after the [try] block is the result the specification
    gives for the progress of the run. *)
Lemma _extract_try_progress (ev : Event.t) (this : Engine) :
  fst (snd (_extract_try ev (initial_result, this)))
  = result_at (pipeline_progress ev this).
Proof.
  unfold _extract_try, pipeline_progress, _extractEntities, bind, this_, assign,
    on_world, on_classifier, call_pure, get_confidenceTreshold, pure.
  cbn.
  next_call; [| reflexivity].
  next_call; [| reflexivity].
  next_call; [| reflexivity].
  next_call; [| reflexivity].
  next_call; [| reflexivity].
  next_call; [| reflexivity].
  next_call; [| reflexivity].
  next_call; [| reflexivity].
  next_call; reflexivity.
Qed.

(** An attempt that returns ends the retry loop: nothing is waited for and
    nothing is invoked again. *)
Lemma retry_first_attempt {A} (func : Method A) (policy : RetryPolicy)
    (this this' : Engine) (a : A) :
  max_tries policy <> 0%nat ->
  func this = (Normal a, this') ->
  retry func policy this = (Normal a, this').
Proof.
  intros Htries Hfunc. unfold retry.
  destruct (max_tries policy) as [| n]; [congruence |].
  cbn [retry_loop]. rewrite Hfunc. reflexivity.
Qed.

Lemma _extract_Normal (ev : Event.t) (this : Engine) :
  exists ret this', _extract ev this = (Normal ret, this').
Proof.
  destruct (_extract_returns ev this) as (this' & H).
  eexists. exists this'. exact H.
Qed.

Lemma this__eq {L A} (m : Method A) (l : L) (this this' : Engine)
    (r : Completion A) :
  m this = (r, this') -> this_ m (l, this) = (r, (l, this')).
Proof. intros H. unfold this_. cbn [fst snd]. rewrite H. reflexivity. Qed.

(** C2: [_extract] and [extract] return a result for every event and never
    raise: the result carries exactly the fields assigned by the steps that
    completed before the first one that raised, with [errored = true], or
    every field with [errored = false] when all the steps completed. In
    particular, when the steps before the slot extraction succeed and the
    slot extraction raises, the result carries the language, the intents,
    the selected intent and the entities, no slots, and [errored = true]. *)
Theorem extract_partial_result :
  (forall (ev : Event.t) (this : Engine),
      exists this',
        _extract ev this = (Normal (result_at (pipeline_progress ev this)), this')
        /\ extract ev this = (Normal (result_at (pipeline_progress ev this)), this'))
  /\ (forall p : Progress,
         Understanding.errored (result_at p) = false <->
         exists language intents intent entities slots,
           p = all_assigned language intents intent entities slots)
  /\ (forall (ev : Event.t) (this this3 : Engine) (lang : string) (w1 w4 w5 : W)
             (predictions : list Prediction) (c1 : C) (matches : string -> bool)
             (ents : list Entity) (intentDef : Intent) (e : Error),
         let text := Event.preview ev in
         let intent := findMostConfidentPredictionMeanStd predictions
                         (ToNumber (confidenceTreshold this)) None in
         LanguageIdentifier.identify text (world this) = (Normal lang, w1) ->
         IntentClassifier.predict text (intentClassifier this)
         = (Normal predictions, c1) ->
         createIntentMatcher (Prediction.name intent) = Normal matches ->
         _extractEntities text lang
           (mkEngine (confidenceTreshold this) c1 w1
              ((calls this ++ [langDetector_identify text])
               ++ [intentClassifier_predict text]))
         = (Normal ents, this3) ->
         Storage.getIntent (Prediction.name intent) (world this3)
         = (Normal intentDef, w4) ->
         SlotExtractor.extract text intentDef ents w4 = (Throw e, w5) ->
         fst (_extract ev this)
         = Normal
             (Understanding.mk (Some lang) (Some predictions)
                (Some (Selected.mk (Prediction.name intent)
                                   (Prediction.confidence intent) matches))
                (Some ents) None true)).
Proof.
  split; [| split].
  - intros ev this.
    destruct (_extract_returns ev this) as (this' & Hret).
    rewrite _extract_try_progress in Hret.
    exists this'. split; [exact Hret |].
    unfold extract. apply retry_first_attempt; [discriminate | exact Hret].
  - intros p. split.
    + destruct p; cbn; try discriminate. intros _. repeat eexists.
    + intros (language & intents & intent & entities & slots & ->). reflexivity.
  - intros ev this this3 lang w1 w4 w5 predictions c1 matches ents intentDef e
           text intent Hid Hpredict Hmatcher Hents Hintent Hslots.
    destruct (_extract_returns ev this) as (this' & Hret).
    rewrite Hret, _extract_try_progress. cbn [fst]. f_equal.
    unfold pipeline_progress. fold text.
    rewrite (on_world_eq _ _ _ _ _ Hid).
    erewrite on_classifier_eq by (cbn [intentClassifier]; exact Hpredict).
    cbn [confidenceTreshold world intentClassifier calls]. fold intent.
    rewrite Hmatcher, Hents.
    rewrite (on_world_eq _ _ _ _ _ Hintent).
    erewrite on_world_eq by (cbn [world]; exact Hslots).
    reflexivity.
Qed.

(** C10: [extract], the retry around [_extract], is [_extract] run once:
    it returns the same result and leaves the same engine, with the same
    calls made; [_extract] always returns, so no attempt follows the first
    and no failure comes out. *)
Theorem extract_is_single_attempt (ev : Event.t) (this : Engine) :
  extract ev this = _extract ev this
  /\ exists ret this', extract ev this = (Normal ret, this').
Proof.
  destruct (_extract_Normal ev this) as (ret & this' & H).
  assert (Hretry : extract ev this = (Normal ret, this')).
  { unfold extract. apply retry_first_attempt; [discriminate | exact H]. }
  split.
  - rewrite Hretry, H. reflexivity.
  - exists ret, this'. exact Hretry.
Qed.
End EngineFacts.

(** ** The engine of the small bot *)

Section DemoRuns.
Import Demo.

Example init_falls_back_on_1_5 :
  confidenceTreshold (snd (init (mkConfig (Some 1.5)) (engine true true)))
  = Some 0.7.
Proof. reflexivity. Qed.

Example init_falls_back_on_NaN :
  confidenceTreshold (snd (init (mkConfig (Some nan)) (engine true true)))
  = Some 0.7.
Proof. reflexivity. Qed.

Example init_keeps_0_5 :
  confidenceTreshold (snd (init (mkConfig (Some 0.5)) (engine true true)))
  = Some 0.5.
Proof. reflexivity. Qed.

Lemma checkSyncNeeded_iff_witness :
  let this := engine true true in
  Storage.getIntents (world this) = (Normal bot_intents, world this)
  /\ exists (needed : bool) this',
      checkSyncNeeded this = (Normal needed, this')
      /\ (needed = true <->
          bot_intents <> [] /\
          IntentClassifier.currentModelId (intentClassifier this)
          <> Some (_getIntentsHash bot_intents))
      /\ (bot_intents = [] -> needed = false).
Proof.
  split; [reflexivity |].
  exact (checkSyncNeeded_iff (engine true true) bot_intents
           (world (engine true true)) eq_refl).
Defined.

Lemma sync_loads_persisted_model_witness :
  let this := engine true true in
  let modelHash := _getIntentsHash bot_intents in
  let this' := snd (sync this) in
  let made := calls_since (calls this) (calls this') in
  Storage.modelExists modelHash (world this) = (Normal true, world this)
  /\ intentClassifier this' = Some modelHash
  /\ IntentClassifier.currentModelId (intentClassifier this') = Some modelHash
  /\ In (intentClassifier_loadModel [Byte.x01; Byte.x02] modelHash) made
  /\ Forall not_intent_training made.
Proof.
  split; [reflexivity |].
  exact (sync_loads_persisted_model (engine true true) bot_intents
           (world (engine true true)) (world (engine true true))
           (world (engine true true)) (world (engine true true))
           [Byte.x01; Byte.x02] (Some (_getIntentsHash bot_intents))
           eq_refl eq_refl eq_refl eq_refl eq_refl).
Defined.

Lemma sync_trains_and_persists_witness :
  let this := engine false true in
  let modelHash := _getIntentsHash bot_intents in
  let this' := snd (sync this) in
  let made := calls_since (calls this) (calls this') in
  Storage.modelExists modelHash (world this) = (Normal false, world this)
  /\ (exists rest,
         made =
         ([storage_getIntents; storage_modelExists modelHash;
           logger_debug "The intents model needs to be updated, training model ...";
           intentClassifier_train bot_intents modelHash;
           fs_readFileSync "/tmp/intents.bin";
           storage_persistModel [Byte.x03] ("1541203200000__" ++ modelHash ++ ".bin");
           logger_debug "Intents done training"] ++ rest)%list
         /\ Forall not_to_classifier rest)
  /\ Forall not_model_loading made
  /\ intentClassifier this' = None.
Proof.
  split; [reflexivity |].
  exact (sync_trains_and_persists (engine false true) bot_intents
           (world (engine false true)) (world (engine false true))
           (world (engine false true)) (world (engine false true))
           (mkWorld true true 1541203200000) (mkWorld true true 1541203200000)
           "/tmp/intents.bin" None [Byte.x03]
           eq_refl eq_refl eq_refl eq_refl eq_refl eq_refl eq_refl).
Defined.

(** The claim of C1 fails on the small bot without a persisted model: the
    run trains and persists, no call loads a model into the classifier, and
    the classifier's current model id is not the hash of the intents. *)
Lemma sync_then_loads_counterexample :
  let this := engine false true in
  let modelHash := _getIntentsHash bot_intents in
  let this' := snd (sync this) in
  Storage.modelExists modelHash (world this) = (Normal false, world this)
  /\ fst (sync this) = Normal tt
  /\ calls this' =
     [storage_getIntents; storage_modelExists modelHash;
      logger_debug "The intents model needs to be updated, training model ...";
      intentClassifier_train bot_intents modelHash;
      fs_readFileSync "/tmp/intents.bin";
      storage_persistModel [Byte.x03] "1541203200000__md5(greet,bye).bin";
      logger_debug "Intents done training";
      slotExtractor_train ["greet: hello"; "greet: hi there"; "bye: see you"]]
  /\ (forall model modelId,
         ~ In (intentClassifier_loadModel model modelId) (calls this'))
  /\ IntentClassifier.currentModelId (intentClassifier this') <> Some modelHash.
Proof.
  cbv zeta. split; [reflexivity |]. split; [reflexivity |].
  split; [reflexivity |]. split.
  - intros model modelId Hin. cbn in Hin.
    repeat (destruct Hin as [Hin | Hin]; [discriminate |]). exact Hin.
  - discriminate.
Qed.

Lemma extract_partial_result_witness :
  let this := engine true false in
  SlotExtractor.extract "hello" greet ["number"; "[0-9]+"; "colors"] (world this)
  = (Throw "the tagger has no model", world this)
  /\ fst (_extract hello this)
     = Normal
         (Understanding.mk (Some "en")
            (Some [Prediction.mk "greet" 0.9; Prediction.mk "bye" 0.4])
            (Some (Selected.mk "greet" 0.9 (String.eqb "greet")))
            (Some ["number"; "[0-9]+"; "colors"]) None true).
Proof.
  split; [reflexivity |].
  exact (proj2 (proj2 extract_partial_result) hello (engine true false)
           (snd (_extractEntities "hello" "en"
                   (mkEngine (Some 0.7) None (world (engine true false))
                      [langDetector_identify "hello"; intentClassifier_predict "hello"])))
           "en" (world (engine true false)) (world (engine true false))
           (world (engine true false))
           [Prediction.mk "greet" 0.9; Prediction.mk "bye" 0.4] None
           (String.eqb "greet")
           ["number"; "[0-9]+"; "colors"] greet "the tagger has no model"
           eq_refl eq_refl eq_refl eq_refl eq_refl eq_refl).
Defined.

Example extract_all_steps :
  fst (extract hello (engine true true))
  = Normal
      (Understanding.mk (Some "en")
         (Some [Prediction.mk "greet" 0.9; Prediction.mk "bye" 0.4])
         (Some (Selected.mk "greet" 0.9 (String.eqb "greet")))
         (Some ["number"; "[0-9]+"; "colors"]) (Some ["name"]) false).
Proof. reflexivity. Qed.
End DemoRuns.

(** * More properties of the engine *)

(** ** The confidence selector *)

Section SelectorMore.
Context {JS : MathObject}.

(** What reaches a bound is a number: [NaN] reaches nothing. *)
Lemma leb_true_not_nan (x y : float) : (x <=? y) = true -> is_nan y = false.
Proof.
  rewrite leb_ltb. intros H.
  apply andb_prop in H. destruct H as [_ H].
  apply negb_true_iff in H. exact H.
Qed.

Lemma select_cases (intents : list Prediction) (t : float)
    (std : option float) :
  let selected := findMostConfidentPredictionMeanStd intents t std in
  selected = NonePrediction
  \/ (In selected intents
      /\ ((t <=? Prediction.confidence selected) = true
          \/ (outlier_cutoff intents (multiplier std)
              <=? Prediction.confidence selected) = true)).
Proof.
  cbv zeta. unfold findMostConfidentPredictionMeanStd.
  rewrite length_eqb_0. destruct intents as [| p rest]; [left; reflexivity |].
  destruct (find (fun x => t <=? Prediction.confidence x) (p :: rest))
    as [best |] eqn:Hbest.
  - right. apply find_some in Hbest. destruct Hbest as [Hin Hreach].
    split; [exact Hin | left; exact Hreach].
  - cbv zeta. rewrite cutoff_agrees. fold (multiplier std).
    destruct (find (fun x => outlier_cutoff (p :: rest) (multiplier std)
                             <=? Prediction.confidence x) (p :: rest))
      as [dominant |] eqn:Hdom.
    + right. apply find_some in Hdom. destruct Hdom as [Hin Hreach].
      split; [exact Hin | right; exact Hreach].
    + left. reflexivity.
Qed.

(** X1: the selector never makes a prediction up: what it returns is the
    sentinel, or a prediction of the list that reaches the fixed threshold
    or the outlier cutoff. *)
Theorem select_is_justified (intents : list Prediction) (t : float)
    (std : option float) :
  let selected := findMostConfidentPredictionMeanStd intents t std in
  selected = NonePrediction
  \/ (In selected intents
      /\ ((t <=? Prediction.confidence selected) = true
          \/ (outlier_cutoff intents (multiplier std)
              <=? Prediction.confidence selected) = true)).
Proof. exact (select_cases intents t std). Qed.

(** X2: the confidence of the selected prediction is never [NaN]: a
    prediction whose confidence is [NaN] is passed over, whatever the
    threshold and the multiplier. *)
Theorem select_never_NaN (intents : list Prediction) (t : float)
    (std : option float) :
  is_nan (Prediction.confidence (findMostConfidentPredictionMeanStd intents t std))
  = false.
Proof.
  destruct (select_cases intents t std) as [-> | [_ [H | H]]].
  - reflexivity.
  - exact (leb_true_not_nan _ _ H).
  - exact (leb_true_not_nan _ _ H).
Qed.

(** X3: when some prediction reaches the fixed threshold, the multiplier
    of the outlier test has no effect on the selection. *)
Theorem select_ignores_multiplier (intents : list Prediction) (t : float)
    (std1 std2 : option float) :
  (exists p, In p intents /\ (t <=? Prediction.confidence p) = true) ->
  findMostConfidentPredictionMeanStd intents t std1
  = findMostConfidentPredictionMeanStd intents t std2.
Proof.
  intros (p & Hin & Hp).
  destruct (find_exists (fun x => t <=? Prediction.confidence x) intents p Hin Hp)
    as (best & Hfind).
  unfold findMostConfidentPredictionMeanStd. rewrite Hfind. reflexivity.
Qed.
End SelectorMore.

Lemma select_ignores_multiplier_witness :
  (exists p, In p [Prediction.mk "greet" 0.9; Prediction.mk "bye" 0.4] /\
             (0.7 <=? Prediction.confidence p) = true)
  /\ findMostConfidentPredictionMeanStd (JS := ieee_Math)
       [Prediction.mk "greet" 0.9; Prediction.mk "bye" 0.4] 0.7 None
     = findMostConfidentPredictionMeanStd (JS := ieee_Math)
         [Prediction.mk "greet" 0.9; Prediction.mk "bye" 0.4] 0.7 (Some 5).
Proof.
  assert (H : exists p, In p [Prediction.mk "greet" 0.9; Prediction.mk "bye" 0.4] /\
                        (0.7 <=? Prediction.confidence p) = true).
  { exists (Prediction.mk "greet" 0.9). split; [left; reflexivity | reflexivity]. }
  split; [exact H |].
  exact (select_ignores_multiplier (JS := ieee_Math) _ 0.7 None (Some 5) H).
Defined.

(** ** Synchronisation and initialisation *)

Section SyncMore.
Context {sdk : SdkTypes} {JS : MathObject} {pipelines : Pipelines}.
Context {W C : Type}.
Context {storage : Storage.t W} {logger : Logger.t W}
        {langDetector : LanguageIdentifier.t W}
        {systemEntityExtractor : EntityExtractor.t W}
        {slotExtractor : SlotExtractor.t W}
        {file_system : fs.t W} {clock : Date.t W}
        {classifier : IntentClassifier.t C}.

Local Abbreviation Engine := (@ScopedEngine sdk W C).
Local Abbreviation Method := (Exec Engine).

Ltac run_world H :=
  erewrite bind_Normal by (apply on_world_eq; cbn [world]; exact H);
  cbv beta zeta.

Ltac run_classifier H :=
  erewrite bind_Normal by (apply on_classifier_eq; cbn [intentClassifier]; exact H);
  cbv beta zeta.

Lemma only_calls_on_classifier {A} (P : Call -> Prop) (c : Call) (op : Exec C A) :
  P c -> only_calls P (on_classifier c op : Method A).
Proof.
  intros Hc this. unfold on_classifier. destruct (op (intentClassifier this)).
  exists [c]. split; [reflexivity | repeat constructor; exact Hc].
Qed.

Lemma only_calls_read {A} (P : Call -> Prop) (m : Method A) :
  (forall this, snd (m this) = this) -> only_calls P m.
Proof.
  intros Hm this. rewrite Hm. exists []. split; [symmetry; apply app_nil_r | constructor].
Qed.

Lemma only_calls_if {A} (P : Call -> Prop) (b : bool) (m1 m2 : Method A) :
  only_calls P m1 -> only_calls P m2 -> only_calls P (if b then m1 else m2).
Proof. destruct b; auto. Qed.

Lemma only_calls_weaken {A} (P Q : Call -> Prop) (m : Method A) :
  (forall c, P c -> Q c) -> only_calls P m -> only_calls Q m.
Proof.
  intros HPQ Hm this. destruct (Hm this) as (new & Hnew & HP).
  exists new. split; [exact Hnew |]. eapply Forall_impl; [| exact HP]. exact HPQ.
Qed.

(** The calls of a run, from what the method only adds. *)
Lemma only_calls_since {A} (P : Call -> Prop) (m : Method A) (this : Engine) :
  only_calls P m -> Forall P (calls_since (calls this) (calls (snd (m this)))).
Proof.
  intros Hm. destruct (Hm this) as (new & Hnew & HP).
  rewrite Hnew, calls_since_app. exact HP.
Qed.

Ltac call_ok :=
  repeat match goal with |- _ /\ _ => split end;
  solve [exact I | eexists; reflexivity | auto].

Ltac only_calls_tac :=
  repeat (intros; cbv beta zeta;
          first [ apply only_calls_bind
                | apply only_calls_try_catch
                | apply only_calls_if
                | apply only_calls_call_pure
                | (apply only_calls_on_world; cbn; call_ok)
                | (apply only_calls_on_classifier; cbn; call_ok)
                | (apply only_calls_read; intros ?; reflexivity) ]).

Lemma slot_training_only (P : Call -> Prop) (intents : list Intent) :
  (forall c, not_to_classifier c -> P c) ->
  only_calls P (slot_training intents : Method unit).
Proof.
  intros HP. eapply only_calls_weaken; [exact HP | apply slot_training_calls].
Qed.

Lemma _loadModel_calls (modelHash : string) :
  only_calls (fun c => not_intent_training c /\ not_predicting c
                       /\ persists_under modelHash c)
             (_loadModel modelHash : Method unit).
Proof. unfold _loadModel. only_calls_tac. Qed.

Lemma _trainModel_calls (intents : list Intent) (modelHash : string) :
  only_calls (fun c => not_model_loading c /\ not_predicting c
                       /\ persists_under modelHash c)
             (_trainModel intents modelHash : Method unit).
Proof.
  unfold _trainModel, Date_now. only_calls_tac.
Qed.

Lemma try_catch_caught {S A} (m : Exec S A) (h : Error -> Exec S A) (s s' : S)
    (e : Error) :
  m s = (Throw e, s') -> try_catch m h s = h e s'.
Proof. intros H. unfold try_catch. rewrite H. reflexivity. Qed.

(** The calls of a method run from a state that already made [pre]. *)
Lemma calls_since_from {A} (P : Call -> Prop) (m : Method A) (this this1 : Engine)
    (pre : list Call) :
  calls this1 = (calls this ++ pre)%list -> Forall P pre -> only_calls P m ->
  Forall P (calls_since (calls this) (calls (snd (m this1)))).
Proof.
  intros Hpre HP Hm. destruct (Hm this1) as (new & Hnew & Hall).
  rewrite Hnew, Hpre, <- app_assoc, calls_since_app.
  apply Forall_app. split; assumption.
Qed.

Lemma sync_never_predicts : only_calls not_predicting (sync : Method unit).
Proof.
  unfold sync, _loadModel, _trainModel, slot_training, Date_now. only_calls_tac.
Qed.

(** X4: in one run of [sync] the intent classifier is trained or a model is
    loaded into it, never both, and it is never asked for a prediction:
    this holds however the collaborators answer. *)
Theorem sync_trains_or_loads (this : Engine) :
  let made := calls_since (calls this) (calls (snd (sync this))) in
  (Forall not_intent_training made \/ Forall not_model_loading made)
  /\ Forall not_predicting made.
Proof.
  cbv zeta. split; [| apply only_calls_since; apply sync_never_predicts].
  unfold sync.
  destruct (Storage.getIntents (world this)) as [[intents | e] w1] eqn:Hget.
  - run_world Hget.
    destruct (Storage.modelExists (_getIntentsHash intents) w1)
      as [[found | e] w2] eqn:Hfound.
    + run_world Hfound. destruct found.
      * left. eapply calls_since_from.
        -- cbn [calls]. rewrite <- app_assoc. reflexivity.
        -- repeat constructor.
        -- apply only_calls_bind.
           ++ eapply only_calls_weaken; [| apply _loadModel_calls].
              intros c H. apply H.
           ++ intros _. apply slot_training_only.
              apply not_to_classifier_not_training.
      * right. eapply calls_since_from.
        -- cbn [calls]. rewrite <- app_assoc. reflexivity.
        -- repeat constructor.
        -- apply only_calls_bind.
           ++ eapply only_calls_weaken; [| apply _trainModel_calls].
              intros c H. apply H.
           ++ intros _. apply slot_training_only.
              apply not_to_classifier_not_loading.
    + left. erewrite bind_Throw by (apply on_world_eq; cbn [world]; exact Hfound).
      cbn [snd calls]. rewrite <- app_assoc, calls_since_app. repeat constructor.
  - left. erewrite bind_Throw by (apply on_world_eq; exact Hget).
    cbn [snd calls]. rewrite calls_since_app. repeat constructor.
Qed.

(** X5: every model [sync] persists is stored under a name made of a
    timestamp, two underscores, the hash of the intents it read and [.bin]:
    the hash in the name is the one [modelExists] is asked for. *)
Theorem sync_persists_under_hash (this : Engine) (intents : list Intent) (w1 : W) :
  Storage.getIntents (world this) = (Normal intents, w1) ->
  Forall (persists_under (_getIntentsHash intents))
         (calls_since (calls this) (calls (snd (sync this)))).
Proof.
  intros Hget. unfold sync. run_world Hget.
  eapply calls_since_from.
  - cbn [calls]. reflexivity.
  - repeat constructor.
  - apply only_calls_bind.
    + apply only_calls_on_world. exact I.
    + intros found. apply only_calls_bind.
      * apply only_calls_if.
        -- eapply only_calls_weaken; [| apply _loadModel_calls].
           intros c H. apply H.
        -- eapply only_calls_weaken; [| apply _trainModel_calls].
           intros c H. apply H.
      * intros _. unfold slot_training. only_calls_tac.
Qed.

(** X6: a failure of the training is swallowed. When no model is persisted
    and [intentClassifier.train] raises, the error is logged with
    [attachError], nothing is read from the file system and nothing is
    persisted, and [sync] goes on with the training of the slot tagger, whose
    completion is the completion of [sync]; the classifier is as the failed
    training left it. *)
Theorem sync_swallows_training_failure (this : Engine) (intents : list Intent)
    (w1 w2 w3 w4 : W) (e : Error) (c1 : C) :
  let modelHash := _getIntentsHash intents in
  Storage.getIntents (world this) = (Normal intents, w1) ->
  Storage.modelExists modelHash w1 = (Normal false, w2) ->
  Logger.debug "The intents model needs to be updated, training model ..." w2
  = (Normal tt, w3) ->
  IntentClassifier.train intents modelHash (intentClassifier this) = (Throw e, c1) ->
  Logger.attachError_error e "Error training intents" w3 = (Normal tt, w4) ->
  sync this
  = slot_training intents
      (mkEngine (confidenceTreshold this) c1 w4
         (calls this ++
          [storage_getIntents; storage_modelExists modelHash;
           logger_debug "The intents model needs to be updated, training model ...";
           intentClassifier_train intents modelHash;
           logger_attachError_error e "Error training intents"])).
Proof.
  intros modelHash Hget Hfound Hdebug Htrain Hlog. unfold sync.
  run_world Hget. fold modelHash. run_world Hfound.
  erewrite bind_Normal; [reflexivity |].
  unfold _trainModel.
  erewrite try_catch_caught
    by (run_world Hdebug;
        erewrite bind_Throw
          by (apply on_classifier_eq; cbn [intentClassifier]; exact Htrain);
        reflexivity).
  erewrite on_world_eq by (cbn [world]; exact Hlog).
  cbn [confidenceTreshold intentClassifier calls].
  rewrite <- !app_assoc. reflexivity.
Qed.

(** X7: a failure of the loading is not swallowed. When a model is persisted
    under the hash and reading it from the storage raises, [sync] raises that
    error: nothing is loaded, the classifier is untouched and the slot tagger
    is not trained. *)
Theorem sync_raises_loading_failure (this : Engine) (intents : list Intent)
    (w1 w2 w3 w4 : W) (e : Error) :
  let modelHash := _getIntentsHash intents in
  Storage.getIntents (world this) = (Normal intents, w1) ->
  Storage.modelExists modelHash w1 = (Normal true, w2) ->
  Logger.debug ("Restoring intents model '" ++ modelHash ++ "' from storage") w2
  = (Normal tt, w3) ->
  Storage.getModelAsBuffer modelHash w3 = (Throw e, w4) ->
  sync this
  = (Throw e,
     mkEngine (confidenceTreshold this) (intentClassifier this) w4
       (calls this ++
        [storage_getIntents; storage_modelExists modelHash;
         logger_debug ("Restoring intents model '" ++ modelHash ++ "' from storage");
         storage_getModelAsBuffer modelHash])).
Proof.
  intros modelHash Hget Hfound Hdebug Hbuffer. unfold sync.
  run_world Hget. fold modelHash. run_world Hfound.
  erewrite bind_Throw; [reflexivity |].
  unfold _loadModel. run_world Hdebug.
  erewrite bind_Throw by (apply on_world_eq; cbn [world]; exact Hbuffer).
  cbn [confidenceTreshold intentClassifier calls].
  rewrite <- !app_assoc. reflexivity.
Qed.

(** The training of the slot tagger raises only if the logger does. *)
Lemma slot_training_Normal (intents : list Intent) (this : Engine) :
  (forall message err w, fst (Logger.error message err w) = Normal tt) ->
  fst (slot_training intents this) = Normal tt.
Proof.
  intros Hlogger. unfold slot_training, try_catch, bind, call_pure, on_world.
  destruct (flatMap_c intents _) as [trainingSet | e].
  - destruct (SlotExtractor.train trainingSet (world this)) as [[[] | e] w].
    + reflexivity.
    + specialize (Hlogger "Error training slot tagger" e w).
      cbn [world]. destruct (Logger.error _ e w). exact Hlogger.
  - specialize (Hlogger "Error training slot tagger" e (world this)).
    destruct (Logger.error _ e (world this)). exact Hlogger.
Qed.

(** The load branch, up to the training of the slot tagger. *)
Lemma sync_load_branch (this : Engine) (intents : list Intent)
    (w1 w2 w3 w4 : W) (model : Buffer) (c' : C) :
  let modelHash := _getIntentsHash intents in
  Storage.getIntents (world this) = (Normal intents, w1) ->
  Storage.modelExists modelHash w1 = (Normal true, w2) ->
  Logger.debug ("Restoring intents model '" ++ modelHash ++ "' from storage") w2
  = (Normal tt, w3) ->
  Storage.getModelAsBuffer modelHash w3 = (Normal model, w4) ->
  IntentClassifier.loadModel model modelHash (intentClassifier this)
  = (Normal tt, c') ->
  sync this
  = slot_training intents
      (mkEngine (confidenceTreshold this) c' w4
         (calls this ++
          [storage_getIntents; storage_modelExists modelHash;
           logger_debug ("Restoring intents model '" ++ modelHash ++ "' from storage");
           storage_getModelAsBuffer modelHash;
           intentClassifier_loadModel model modelHash])).
Proof.
  intros modelHash Hget Hfound Hdebug Hbuffer Hload. unfold sync.
  run_world Hget. fold modelHash. run_world Hfound.
  erewrite bind_Normal; [reflexivity |].
  unfold _loadModel. run_world Hdebug. run_world Hbuffer.
  erewrite on_classifier_eq by (cbn [intentClassifier]; exact Hload).
  cbn [confidenceTreshold world calls]. rewrite <- !app_assoc. reflexivity.
Qed.

(** X8: the slot tagger cannot make [sync] fail. When the model is loaded
    from the storage and the logger does not raise, [sync] ends normally,
    whether the training of the slot tagger or the generation of its
    training sequences raise or not. *)
Theorem sync_survives_slot_training (this : Engine) (intents : list Intent)
    (w1 w2 w3 w4 : W) (model : Buffer) (c' : C) :
  let modelHash := _getIntentsHash intents in
  (forall message err w, fst (Logger.error message err w) = Normal tt) ->
  Storage.getIntents (world this) = (Normal intents, w1) ->
  Storage.modelExists modelHash w1 = (Normal true, w2) ->
  Logger.debug ("Restoring intents model '" ++ modelHash ++ "' from storage") w2
  = (Normal tt, w3) ->
  Storage.getModelAsBuffer modelHash w3 = (Normal model, w4) ->
  IntentClassifier.loadModel model modelHash (intentClassifier this)
  = (Normal tt, c') ->
  fst (sync this) = Normal tt.
Proof.
  intros modelHash Hlogger Hget Hfound Hdebug Hbuffer Hload.
  rewrite (sync_load_branch this intents w1 w2 w3 w4 model c'
             Hget Hfound Hdebug Hbuffer Hload).
  apply slot_training_Normal. exact Hlogger.
Qed.

(** X9: once [sync] has loaded the persisted model, no further sync is
    needed: if the storage still returns the same intents,
    [checkSyncNeeded] returns [false]. *)
Theorem sync_then_checkSyncNeeded (this : Engine) (intents : list Intent)
    (w1 w2 w3 w4 w5 : W) (model : Buffer) (c' : C) :
  let modelHash := _getIntentsHash intents in
  Storage.getIntents (world this) = (Normal intents, w1) ->
  Storage.modelExists modelHash w1 = (Normal true, w2) ->
  Logger.debug ("Restoring intents model '" ++ modelHash ++ "' from storage") w2
  = (Normal tt, w3) ->
  Storage.getModelAsBuffer modelHash w3 = (Normal model, w4) ->
  IntentClassifier.loadModel model modelHash (intentClassifier this)
  = (Normal tt, c') ->
  Storage.getIntents (world (snd (sync this))) = (Normal intents, w5) ->
  fst (checkSyncNeeded (snd (sync this))) = Normal false.
Proof.
  intros modelHash Hget Hfound Hdebug Hbuffer Hload Hagain.
  assert (Hc : intentClassifier (snd (sync this)) = c').
  { rewrite (sync_load_branch this intents w1 w2 w3 w4 model c'
               Hget Hfound Hdebug Hbuffer Hload).
    rewrite slot_training_keeps_classifier. reflexivity. }
  unfold checkSyncNeeded. run_world Hagain.
  destruct (negb (Nat.eqb (length intents) 0)); [| reflexivity].
  unfold bind, get_currentModelId, pure. cbn [intentClassifier fst].
  rewrite Hc, (IntentClassifier.loadModel_tags _ _ _ Hload).
  cbn [strict_neq]. fold modelHash. rewrite String.eqb_refl. reflexivity.
Qed.

(** The train branch, up to the training of the slot tagger. *)
Lemma sync_train_branch (this : Engine) (intents : list Intent)
    (w1 w2 w3 w4 w5 w6 : W) (path : string) (c1 : C) (model : Buffer) :
  let modelHash := _getIntentsHash intents in
  let intentModelName := string_of_Z (Date.now w4) ++ "__" ++ modelHash ++ ".bin" in
  Storage.getIntents (world this) = (Normal intents, w1) ->
  Storage.modelExists modelHash w1 = (Normal false, w2) ->
  Logger.debug "The intents model needs to be updated, training model ..." w2
  = (Normal tt, w3) ->
  IntentClassifier.train intents modelHash (intentClassifier this)
  = (Normal path, c1) ->
  fs.readFileSync path w3 = (Normal model, w4) ->
  Storage.persistModel model intentModelName w4 = (Normal tt, w5) ->
  Logger.debug "Intents done training" w5 = (Normal tt, w6) ->
  sync this
  = slot_training intents
      (mkEngine (confidenceTreshold this) c1 w6
         (calls this ++
          [storage_getIntents; storage_modelExists modelHash;
           logger_debug "The intents model needs to be updated, training model ...";
           intentClassifier_train intents modelHash;
           fs_readFileSync path;
           storage_persistModel model intentModelName;
           logger_debug "Intents done training"])).
Proof.
  intros modelHash intentModelName Hget Hfound Hdebug Htrain Hread Hpersist Hdone.
  unfold sync. run_world Hget. fold modelHash. run_world Hfound.
  erewrite bind_Normal
    by (apply _trainModel_Normal with (w1 := w3) (w2 := w4) (w3 := w5)
          (w4 := w6) (path := path) (c1 := c1) (model := model);
        cbn [world intentClassifier]; assumption).
  cbn [confidenceTreshold calls]. fold intentModelName.
  rewrite <- !app_assoc. reflexivity.
Qed.

(** X21: after [sync] has trained and persisted a model, whether a further
    sync is needed is decided by the identifier the training left in the
    classifier: with the same intents in the storage, [checkSyncNeeded]
    returns [true] unless there are no intents or the training itself set
    the identifier to the hash. *)
Theorem sync_trained_then_checkSyncNeeded (this : Engine) (intents : list Intent)
    (w1 w2 w3 w4 w5 w6 w7 : W) (path : string) (c1 : C) (model : Buffer) :
  let modelHash := _getIntentsHash intents in
  let intentModelName := string_of_Z (Date.now w4) ++ "__" ++ modelHash ++ ".bin" in
  Storage.getIntents (world this) = (Normal intents, w1) ->
  Storage.modelExists modelHash w1 = (Normal false, w2) ->
  Logger.debug "The intents model needs to be updated, training model ..." w2
  = (Normal tt, w3) ->
  IntentClassifier.train intents modelHash (intentClassifier this)
  = (Normal path, c1) ->
  fs.readFileSync path w3 = (Normal model, w4) ->
  Storage.persistModel model intentModelName w4 = (Normal tt, w5) ->
  Logger.debug "Intents done training" w5 = (Normal tt, w6) ->
  Storage.getIntents (world (snd (sync this))) = (Normal intents, w7) ->
  fst (checkSyncNeeded (snd (sync this)))
  = Normal (negb (Nat.eqb (length intents) 0)
            && strict_neq (IntentClassifier.currentModelId c1) modelHash).
Proof.
  intros modelHash intentModelName Hget Hfound Hdebug Htrain Hread Hpersist Hdone
         Hagain.
  assert (Hc : intentClassifier (snd (sync this)) = c1).
  { rewrite (sync_train_branch this intents w1 w2 w3 w4 w5 w6 path c1 model
               Hget Hfound Hdebug Htrain Hread Hpersist Hdone).
    rewrite slot_training_keeps_classifier. reflexivity. }
  unfold checkSyncNeeded. run_world Hagain.
  destruct (negb (Nat.eqb (length intents) 0)); [| reflexivity].
  unfold bind, get_currentModelId, pure. cbn [intentClassifier fst andb].
  rewrite Hc. reflexivity.
Qed.

(** [init] sets the threshold, then checks and synchronises. *)
Lemma init_after_threshold (config : Config) (this : Engine) :
  init config this
  = (needed <- checkSyncNeeded ;; if needed : bool then sync else pure tt)
      (mkEngine (Some (threshold_policy (config_confidenceTreshold config)))
                (intentClassifier this) (world this) (calls this)).
Proof.
  unfold init. unfold bind at 1 2 3. unfold set_confidenceTreshold at 1.
  unfold get_confidenceTreshold. cbn [confidenceTreshold].
  destruct (config_confidenceTreshold config) as [v |];
    cbn [ToNumber threshold_policy].
  - rewrite init_guard.
    destruct ((0 <=? v) && (v <=? 1)); cbn [negb]; reflexivity.
  - change (isNaN nan || (nan <? 0) || (1 <? nan)) with true. reflexivity.
Qed.

(** X10: without intents, or when the classifier already holds the model
    of the hash of the intents, [init] sets the threshold, reads the intents
    once and does nothing else: nothing is loaded, trained or persisted and
    the slot tagger is not trained. *)
Theorem init_without_sync (config : Config) (this : Engine)
    (intents : list Intent) (w1 : W) :
  Storage.getIntents (world this) = (Normal intents, w1) ->
  intents = []
  \/ IntentClassifier.currentModelId (intentClassifier this)
     = Some (_getIntentsHash intents) ->
  init config this
  = (Normal tt,
     mkEngine (Some (threshold_policy (config_confidenceTreshold config)))
              (intentClassifier this) w1 (calls this ++ [storage_getIntents])).
Proof.
  intros Hget Hsynced. rewrite init_after_threshold.
  unfold checkSyncNeeded.
  erewrite bind_Normal.
  2: { run_world Hget. rewrite length_eqb_0.
       destruct intents as [| i rest]; cbn [negb].
       - reflexivity.
       - destruct Hsynced as [Hnil | Hid]; [discriminate |].
         unfold bind, get_currentModelId, pure. cbn [intentClassifier].
         rewrite Hid. cbn [strict_neq]. rewrite String.eqb_refl. reflexivity. }
  destruct intents; reflexivity.
Qed.

(** X11: with intents whose hash is not the identifier of the model the
    classifier holds, [init] is the setting of the threshold followed by
    [sync], which reads the intents a second time. *)
Theorem init_with_sync (config : Config) (this : Engine)
    (intents : list Intent) (w1 : W) :
  Storage.getIntents (world this) = (Normal intents, w1) ->
  intents <> [] ->
  IntentClassifier.currentModelId (intentClassifier this)
  <> Some (_getIntentsHash intents) ->
  init config this
  = sync (mkEngine (Some (threshold_policy (config_confidenceTreshold config)))
                   (intentClassifier this) w1 (calls this ++ [storage_getIntents])).
Proof.
  intros Hget Hne Hid. rewrite init_after_threshold.
  unfold checkSyncNeeded.
  erewrite bind_Normal.
  2: { run_world Hget. rewrite length_eqb_0.
       destruct intents as [| i rest]; [congruence |]. cbn [negb].
       unfold bind, get_currentModelId, pure. cbn [intentClassifier].
       apply (strict_neq_true _ _) in Hid. rewrite Hid. reflexivity. }
  reflexivity.
Qed.

(** X12: when the storage cannot return the intents, [init] raises that
    error; the threshold is set all the same, and the classifier is not
    touched. *)
Theorem init_raises_storage_failure (config : Config) (this : Engine)
    (e : Error) (w1 : W) :
  Storage.getIntents (world this) = (Throw e, w1) ->
  init config this
  = (Throw e,
     mkEngine (Some (threshold_policy (config_confidenceTreshold config)))
              (intentClassifier this) w1 (calls this ++ [storage_getIntents])).
Proof.
  intros Hget. rewrite init_after_threshold.
  erewrite bind_Throw.
  2: { unfold checkSyncNeeded.
       erewrite bind_Throw by (apply on_world_eq; cbn [world]; exact Hget).
       reflexivity. }
  reflexivity.
Qed.
End SyncMore.

(** ** The extraction pipeline *)

Section PipelineMore.
Context {sdk : SdkTypes} {JS : MathObject} {pipelines : Pipelines}.
Context {W C : Type}.
Context {storage : Storage.t W} {logger : Logger.t W}
        {langDetector : LanguageIdentifier.t W}
        {systemEntityExtractor : EntityExtractor.t W}
        {slotExtractor : SlotExtractor.t W}
        {file_system : fs.t W} {clock : Date.t W}
        {classifier : IntentClassifier.t C}.

Local Abbreviation Engine := (@ScopedEngine sdk W C).
Local Abbreviation Method := (Exec Engine).

(** The next call of a run, in the order of the run. *)
Ltac next_step :=
  match goal with
  | |- context [createIntentMatcher ?name] =>
      destruct (createIntentMatcher name) eqn:?; cbn
  | |- context [extractPatternEntities ?text ?defs] =>
      destruct (extractPatternEntities text defs) eqn:?; cbn
  | |- context [extractListEntities ?text ?defs] =>
      destruct (extractListEntities text defs) eqn:?; cbn
  | |- context [match ?x with pair _ _ => _ end] =>
      lazymatch type of x with
      | (Completion _ * W)%type => destruct x as [[? | ?] ?] eqn:?; cbn
      | (Completion _ * C)%type => destruct x as [[? | ?] ?] eqn:?; cbn
      end
  end.

Ltac unfold_pipeline :=
  unfold _extract, with_local, finally_return, read_local, try_catch,
    _extract_try, _extractEntities, bind, this_, assign, on_world,
    on_classifier, call_pure, get_confidenceTreshold, pure;
  cbn.




(** X14: the intent definition the pipeline asks the storage for is the
    one named by the selected intent of the result; when the classifier
    returned no prediction at all, it is the definition named ["none"]. *)
Theorem extract_looks_up_selected_intent (ev : Event.t) (this : Engine)
    (name : string) :
  In (storage_getIntent name)
     (calls_since (calls this) (calls (snd (_extract ev this)))) ->
  exists ret this',
    _extract ev this = (Normal ret, this')
    /\ option_map Selected.name (Understanding.intent ret) = Some name
    /\ (Understanding.intents ret = Some [] -> name = "none").
Proof.
  unfold_pipeline. repeat next_step; cbn [snd calls];
    rewrite <- ?app_assoc; rewrite calls_since_app; cbn;
    intros Hin;
    repeat (destruct Hin as [Hin | Hin]; [try discriminate |]);
    try contradiction;
    injection Hin as <-;
    (do 2 eexists; split; [reflexivity |]; split; [reflexivity |]);
    intros Hnone; injection Hnone as ->; reflexivity.
Qed.

(** X15: in the entity extraction the system extractor is called last: if
    it is called, the custom entities were read and the pattern and list
    extractors have returned, each on the definitions of its own type; and
    when it returns, the entities are the system ones first, then the
    pattern ones, then the list ones. *)
Theorem extractEntities_order (text lang : string) (this : Engine) :
  In (systemEntityExtractor_extract text lang)
     (calls_since (calls this) (calls (snd (_extractEntities text lang this)))) ->
  exists customEntityDefs w patternEntities listEntities,
    Storage.getCustomEntities (world this) = (Normal customEntityDefs, w)
    /\ extractPatternEntities text
         (filter (fun ent => String.eqb (type ent) "pattern") customEntityDefs)
       = Normal patternEntities
    /\ extractListEntities text
         (filter (fun ent => String.eqb (type ent) "list") customEntityDefs)
       = Normal listEntities
    /\ forall systemEntities w',
         EntityExtractor.extract text lang w = (Normal systemEntities, w') ->
         fst (_extractEntities text lang this)
         = Normal (systemEntities ++ patternEntities ++ listEntities)%list.
Proof.
  unfold _extractEntities, bind, on_world, call_pure, pure. cbn.
  repeat next_step; cbn [snd calls];
    rewrite <- ?app_assoc; rewrite calls_since_app; cbn;
    intros Hin;
    repeat (destruct Hin as [Hin | Hin]; [try discriminate |]);
    try contradiction;
    (do 4 eexists; split; [reflexivity |]; split; [eassumption |];
     split; [eassumption |]);
    intros systemEntities w' Hsys; congruence.
Qed.

(** X16: the threshold is written by [init] only: checking, synchronising
    and extracting leave it as it was, however the collaborators answer. *)
Theorem threshold_is_only_set_by_init (this : Engine) (ev : Event.t) :
  confidenceTreshold (snd (checkSyncNeeded this)) = confidenceTreshold this
  /\ confidenceTreshold (snd (sync this)) = confidenceTreshold this
  /\ confidenceTreshold (snd (_extract ev this)) = confidenceTreshold this
  /\ confidenceTreshold (snd (extract ev this)) = confidenceTreshold this.
Proof.
  assert (Hextract : confidenceTreshold (snd (_extract ev this))
                     = confidenceTreshold this).
  { unfold_pipeline. repeat next_step; reflexivity. }
  split; [apply checkSyncNeeded_keeps_threshold |].
  split; [apply sync_keeps_threshold |].
  split; [exact Hextract |].
  destruct (_extract_Normal ev this) as (ret & this' & H).
  unfold extract. rewrite (retry_first_attempt _ retryPolicy _ _ _ ltac:(discriminate) H).
  rewrite H in Hextract. exact Hextract.
Qed.
End PipelineMore.

(** ** The registry of engines *)

Section JSObjectFacts.
Context {V : Type}.

Lemma get_delete_same (o : JSObject V) (key : string) :
  get_property (delete_property o key) key = None.
Proof.
  unfold get_property, delete_property.
  induction o as [| [k v] o IH]; cbn.
  - reflexivity.
  - destruct (String.eqb k key) eqn:Hk; cbn.
    + exact IH.
    + rewrite Hk. exact IH.
Qed.

Lemma get_delete_other (o : JSObject V) (key other : string) :
  other <> key ->
  get_property (delete_property o key) other = get_property o other.
Proof.
  intros Hne. unfold get_property, delete_property.
  induction o as [| [k v] o IH]; cbn.
  - reflexivity.
  - destruct (String.eqb k key) eqn:Hk; cbn.
    + apply String.eqb_eq in Hk. subst k.
      destruct (String.eqb key other) eqn:Hko.
      * apply String.eqb_eq in Hko. congruence.
      * exact IH.
    + destruct (String.eqb k other); [reflexivity | exact IH].
Qed.



Lemma delete_delete (o : JSObject V) (key : string) :
  delete_property (delete_property o key) key = delete_property o key.
Proof.
  unfold delete_property. induction o as [| [k v] o IH]; cbn.
  - reflexivity.
  - destruct (String.eqb k key) eqn:Hk; cbn.
    + exact IH.
    + rewrite Hk. cbn. rewrite IH. reflexivity.
Qed.

Lemma delete_absent (o : JSObject V) (key : string) :
  get_property o key = None -> delete_property o key = o.
Proof.
  unfold get_property, delete_property. induction o as [| [k v] o IH]; cbn.
  - reflexivity.
  - destruct (String.eqb k key) eqn:Hk; cbn.
    + discriminate.
    + intros H. rewrite (IH H). reflexivity.
Qed.
End JSObjectFacts.

Section LifecycleFacts.
Context {sdk : SdkTypes} {JS : MathObject} {pipelines : Pipelines}.
Context {W C : Type}.
Context {logger : Logger.t W}
        {langDetector : LanguageIdentifier.t W}
        {systemEntityExtractor : EntityExtractor.t W}
        {slotExtractor : SlotExtractor.t W}
        {file_system : fs.t W} {clock : Date.t W}
        {classifier : IntentClassifier.t C}.
Variable storage_of : Config -> string -> Storage.t W.
Variable new_classifier : C.
Variable getModuleConfigForBot : string -> string -> Exec W Config.

Local Abbreviation mount := (onBotMount storage_of new_classifier getModuleConfigForBot).
Local Abbreviation State := (@Process sdk W C).





(** X19: unmounting a bot always ends normally and removes its engine from
    the registry, whether it was mounted or not; the engines of the other
    bots, the world and the calls are not touched. *)
Theorem onBotUnmount_removes (botId : string) (p : State) :
  let p' := snd (onBotUnmount botId p) in
  fst (onBotUnmount botId p) = Normal tt
  /\ get_property (nluByBot p') botId = None
  /\ (forall other, other <> botId ->
        get_property (nluByBot p') other = get_property (nluByBot p) other)
  /\ process_world p' = process_world p
  /\ process_calls p' = process_calls p.
Proof.
  cbv zeta. unfold onBotUnmount. cbn [fst snd nluByBot process_world process_calls].
  split; [reflexivity |]. split; [apply get_delete_same |].
  split; [| split; reflexivity].
  intros other Hother. apply get_delete_other. exact Hother.
Qed.

(** X20: for a bot whose identifier is not ["__proto__"], unmounting it
    after it mounted leaves the registry as unmounting alone would: exactly
    as it was before the mount when the bot was not registered then. *)
Theorem onBotMount_then_onBotUnmount (botId : string) (p : State) :
  botId <> "__proto__" ->
  fst (mount botId p) = Normal tt ->
  let registry := nluByBot (snd (onBotUnmount botId (snd (mount botId p)))) in
  registry = delete_property (nluByBot p) botId
  /\ (get_property (nluByBot p) botId = None -> registry = nluByBot p).
Proof.
  intros Hkey Hmount. cbv zeta.
  assert (H : nluByBot (snd (onBotUnmount botId (snd (mount botId p))))
              = delete_property (nluByBot p) botId).
  { revert Hmount. unfold onBotUnmount, onBotMount.
    destruct (getModuleConfigForBot "nlu" botId (process_world p))
      as [[config | e] w]; [| discriminate].
    destruct (init config _) as [[[] | e] this]; [| discriminate].
    intros _. cbn [snd nluByBot]. unfold set_property.
    destruct (String.eqb_spec botId "__proto__") as [Heq | _]; [contradiction |].
    unfold delete_property at 1. cbn [filter fst].
    rewrite String.eqb_refl. cbn [negb].
    apply delete_delete. }
  split; [exact H |].
  intros Habsent. rewrite H. apply delete_absent. exact Habsent.
Qed.
End LifecycleFacts.

(** ** More runs of the small bot *)

Section MoreRuns.
Import Demo.

Lemma sync_persists_under_hash_witness :
  let this := engine false true in
  Storage.getIntents (world this) = (Normal bot_intents, world this)
  /\ Forall (persists_under (_getIntentsHash bot_intents))
            (calls_since (calls this) (calls (snd (sync this)))).
Proof.
  split; [reflexivity |].
  exact (sync_persists_under_hash (engine false true) bot_intents
           (world (engine false true)) eq_refl).
Defined.

Lemma sync_swallows_training_failure_witness :
  let this := engine false true in
  let modelHash := _getIntentsHash bot_intents in
  IntentClassifier.train (t := Faulty.classifier) bot_intents modelHash
    (intentClassifier this)
  = (Throw "fastText failed", None)
  /\ sync (classifier := Faulty.classifier) this
     = slot_training bot_intents
         (mkEngine (Some 0.7) None (world this)
            [storage_getIntents; storage_modelExists modelHash;
             logger_debug "The intents model needs to be updated, training model ...";
             intentClassifier_train bot_intents modelHash;
             logger_attachError_error "fastText failed" "Error training intents"]).
Proof.
  split; [reflexivity |].
  exact (sync_swallows_training_failure (classifier := Faulty.classifier)
           (engine false true) bot_intents
           (world (engine false true)) (world (engine false true))
           (world (engine false true)) (world (engine false true))
           "fastText failed" None eq_refl eq_refl eq_refl eq_refl eq_refl).
Defined.

Lemma sync_raises_loading_failure_witness :
  let this := engine true true in
  let modelHash := _getIntentsHash bot_intents in
  Storage.getModelAsBuffer (t := Faulty.storage) modelHash (world this)
  = (Throw "model not found", world this)
  /\ sync (storage := Faulty.storage) this
     = (Throw "model not found",
        mkEngine (Some 0.7) None (world this)
          [storage_getIntents; storage_modelExists modelHash;
           logger_debug ("Restoring intents model '" ++ modelHash ++ "' from storage");
           storage_getModelAsBuffer modelHash]).
Proof.
  split; [reflexivity |].
  exact (sync_raises_loading_failure (storage := Faulty.storage)
           (engine true true) bot_intents
           (world (engine true true)) (world (engine true true))
           (world (engine true true)) (world (engine true true))
           "model not found" eq_refl eq_refl eq_refl eq_refl).
Defined.

Lemma sync_survives_slot_training_witness :
  let this := engine true true in
  SlotExtractor.train (t := Faulty.slotExtractor)
    ["greet: hello"; "greet: hi there"; "bye: see you"] (world this)
  = (Throw "CRF training failed", world this)
  /\ fst (sync (slotExtractor := Faulty.slotExtractor) this) = Normal tt.
Proof.
  split; [reflexivity |].
  exact (sync_survives_slot_training (slotExtractor := Faulty.slotExtractor)
           (engine true true) bot_intents
           (world (engine true true)) (world (engine true true))
           (world (engine true true)) (world (engine true true))
           [Byte.x01; Byte.x02] (Some (_getIntentsHash bot_intents))
           (fun _ _ _ => eq_refl) eq_refl eq_refl eq_refl eq_refl eq_refl).
Defined.

Lemma sync_then_checkSyncNeeded_witness :
  let this := engine true true in
  fst (checkSyncNeeded this) = Normal true
  /\ fst (checkSyncNeeded (snd (sync this))) = Normal false.
Proof.
  split; [reflexivity |].
  exact (sync_then_checkSyncNeeded (engine true true) bot_intents
           (world (engine true true)) (world (engine true true))
           (world (engine true true)) (world (engine true true))
           (world (engine true true))
           [Byte.x01; Byte.x02] (Some (_getIntentsHash bot_intents))
           eq_refl eq_refl eq_refl eq_refl eq_refl eq_refl).
Defined.

Lemma sync_trained_then_checkSyncNeeded_witness :
  let this := engine false true in
  Storage.modelExists (_getIntentsHash bot_intents) (world this)
  = (Normal false, world this)
  /\ fst (checkSyncNeeded (snd (sync this)))
     = Normal (negb (Nat.eqb (length bot_intents) 0)
               && strict_neq (IntentClassifier.currentModelId (None : Classifier))
                             (_getIntentsHash bot_intents)).
Proof.
  split; [reflexivity |].
  exact (sync_trained_then_checkSyncNeeded (engine false true) bot_intents
           (world (engine false true)) (world (engine false true))
           (world (engine false true)) (world (engine false true))
           (mkWorld true true 1541203200000) (mkWorld true true 1541203200000)
           (mkWorld true true 1541203200000)
           "/tmp/intents.bin" None [Byte.x03]
           eq_refl eq_refl eq_refl eq_refl eq_refl eq_refl eq_refl eq_refl).
Defined.

Lemma init_without_sync_witness :
  let this := engine false true in
  Storage.getIntents (t := Faulty.empty_storage) (world this)
  = (Normal [], world this)
  /\ init (storage := Faulty.empty_storage) (mkConfig (Some 0.5)) this
     = (Normal tt,
        mkEngine (Some 0.5) None (world this) [storage_getIntents]).
Proof.
  split; [reflexivity |].
  exact (init_without_sync (storage := Faulty.empty_storage)
           (mkConfig (Some 0.5)) (engine false true) []
           (world (engine false true)) eq_refl (or_introl eq_refl)).
Defined.

Lemma init_with_sync_witness :
  let this := engine true true in
  bot_intents <> []
  /\ IntentClassifier.currentModelId (intentClassifier this)
     <> Some (_getIntentsHash bot_intents)
  /\ init (mkConfig None) this
     = sync (mkEngine (Some 0.7) None (world this) [storage_getIntents]).
Proof.
  assert (Hne : bot_intents <> []) by discriminate.
  assert (Hid : IntentClassifier.currentModelId (intentClassifier (engine true true))
                <> Some (_getIntentsHash bot_intents)) by discriminate.
  split; [exact Hne |]. split; [exact Hid |].
  exact (init_with_sync (mkConfig None) (engine true true) bot_intents
           (world (engine true true)) eq_refl Hne Hid).
Defined.

Lemma init_raises_storage_failure_witness :
  let this := engine true true in
  init (storage := Faulty.offline_storage) (mkConfig (Some 1.5)) this
  = (Throw "storage unreachable",
     mkEngine (Some 0.7) None (world this) [storage_getIntents]).
Proof.
  exact (init_raises_storage_failure (storage := Faulty.offline_storage)
           (mkConfig (Some 1.5)) (engine true true) "storage unreachable"
           (world (engine true true)) eq_refl).
Defined.

Lemma extract_looks_up_selected_intent_witness :
  let this := engine true true in
  In (storage_getIntent "greet")
     (calls_since (calls this) (calls (snd (_extract hello this))))
  /\ exists ret this',
      _extract hello this = (Normal ret, this')
      /\ option_map Selected.name (Understanding.intent ret) = Some "greet"
      /\ (Understanding.intents ret = Some [] -> "greet" = "none").
Proof.
  assert (Hin : In (storage_getIntent "greet")
                   (calls_since (calls (engine true true))
                      (calls (snd (_extract hello (engine true true)))))).
  { cbn. auto 10. }
  split; [exact Hin |].
  exact (extract_looks_up_selected_intent hello (engine true true) "greet" Hin).
Defined.

Lemma extractEntities_order_witness :
  let this := engine true true in
  In (systemEntityExtractor_extract "hello" "en")
     (calls_since (calls this) (calls (snd (_extractEntities "hello" "en" this))))
  /\ exists customEntityDefs w patternEntities listEntities,
      Storage.getCustomEntities (world this) = (Normal customEntityDefs, w)
      /\ extractPatternEntities "hello"
           (filter (fun ent => String.eqb (type ent) "pattern") customEntityDefs)
         = Normal patternEntities
      /\ extractListEntities "hello"
           (filter (fun ent => String.eqb (type ent) "list") customEntityDefs)
         = Normal listEntities
      /\ forall systemEntities w',
           EntityExtractor.extract "hello" "en" w = (Normal systemEntities, w') ->
           fst (_extractEntities "hello" "en" this)
           = Normal (systemEntities ++ patternEntities ++ listEntities)%list.
Proof.
  assert (Hin : In (systemEntityExtractor_extract "hello" "en")
                   (calls_since (calls (engine true true))
                      (calls (snd (_extractEntities "hello" "en" (engine true true)))))).
  { cbn. auto. }
  split; [exact Hin |].
  exact (extractEntities_order "hello" "en" (engine true true) Hin).
Defined.

(** The process of the small bot: every bot reads the same storage. *)
Local Abbreviation mount :=
  (onBotMount (fun _ _ => Demo.storage) (None : Classifier)
              Faulty.getModuleConfigForBot).



Lemma onBotUnmount_removes_witness :
  let p := snd (mount "welcome-bot" Faulty.process) in
  let p' := snd (onBotUnmount "welcome-bot" p) in
  fst (onBotUnmount "welcome-bot" p) = Normal tt
  /\ get_property (nluByBot p') "welcome-bot" = None
  /\ (forall other, other <> "welcome-bot" ->
        get_property (nluByBot p') other = get_property (nluByBot p) other)
  /\ process_world p' = process_world p
  /\ process_calls p' = process_calls p.
Proof.
  exact (onBotUnmount_removes "welcome-bot"
           (snd (mount "welcome-bot" Faulty.process))).
Defined.

Lemma onBotMount_then_onBotUnmount_witness :
  let registry :=
    nluByBot (snd (onBotUnmount "welcome-bot"
                     (snd (mount "welcome-bot" Faulty.process)))) in
  "welcome-bot" <> "__proto__"
  /\ fst (mount "welcome-bot" Faulty.process) = Normal tt
  /\ registry = delete_property (nluByBot Faulty.process) "welcome-bot"
  /\ (get_property (nluByBot Faulty.process) "welcome-bot" = None ->
      registry = nluByBot Faulty.process).
Proof.
  assert (Hkey : "welcome-bot" <> "__proto__") by discriminate.
  split; [exact Hkey |]. split; [reflexivity |].
  exact (onBotMount_then_onBotUnmount (fun _ _ => Demo.storage) (None : Classifier)
           Faulty.getModuleConfigForBot "welcome-bot" Faulty.process Hkey eq_refl).
Defined.
End MoreRuns.
